(** * Form fixture generator: scripts/generate_simple_forms.py

    A shallow embedding of the script that writes four sample PDF documents
    with AcroForm fields, and the properties of the field definitions it
    hands to the PDF library.

    The script is straight-line code over one mutable canvas per document.
    Library calls (reportlab, os, datetime) are the only effects; each of
    them may raise.  The embedding is a state-and-exception monad over a
    [World] that records what the library was asked to do.

    The fault table says which calls fail; the script cannot choose it.
    Statements about a document read back from a completed run hold for
    every library that completes the run.  With reportlab as released two
    of the four generators do not complete: [acroForm.choice] raises when
    its [value] is empty.  What the script does then is stated on the calls
    a run has attempted, in the second half of the file.

    The import guard at the top of the script (print a hint and exit with
    status 1 when reportlab is missing) and the call of [main] at its end
    are put together with [main] in [script_body], at the end of the file. *)

From Stdlib Require Import String Ascii ZArith NArith List Bool Lia DecimalString.
From ExtLib Require Import Structures.Monad.
Import ListNotations.
Import MonadNotation.

Local Open Scope string_scope.
Local Open Scope Z_scope.
Local Open Scope list_scope.
Local Open Scope monad_scope.

(** String concatenation, kept apart from list append. *)
Infix "+++" := String.append (at level 60, right associativity).

(* ===================================================================== *)
(** ** Python values used by the script *)
(* ===================================================================== *)

Module Py.

(** [str.lower()] on the ASCII range. *)
Definition lower_ascii (c : ascii) : ascii :=
  let n := N_of_ascii c in
  if (65 <=? n)%N && (n <=? 90)%N then ascii_of_N (n + 32) else c.

Fixpoint lower (s : string) : string :=
  match s with
  | EmptyString => EmptyString
  | String c r => String (lower_ascii c) (lower r)
  end.

(** Exceptions.  [SystemExit] derives from [BaseException] only, so an
    [except Exception] clause does not catch it; everything the PDF
    library and the file system raise is an [Exception]. *)
Inductive Exn : Type :=
| Exception (msg : string)
| SystemExit (code : Z).

Inductive Result (A : Type) : Type :=
| Ok (a : A)
| Raise (e : Exn).
Arguments Ok {A} a.
Arguments Raise {A} e.

(** What the interpreter reports to the shell when the top-level call
    ends: 0 on normal return, the code of an uncaught [SystemExit], 1 for
    any other uncaught exception. *)
Definition exit_status {A} (r : Result A) : Z :=
  match r with
  | Ok _ => 0
  | Raise (SystemExit code) => code
  | Raise (Exception _) => 1
  end.

(** [datetime] objects and the [strftime] directives the script uses.
    The fields are not range-checked: what is proved for every clock holds
    for the clocks there are.  [%Y] is the year as the C library prints it,
    without padding; from the year 1000 on that is four digits on every
    platform. *)
Record datetime : Type := mkDatetime {
  year : N; month : N; day : N; hour : N; minute : N; second : N
}.

Definition dec (n : N) : string := NilZero.string_of_uint (N.to_uint n).

Definition zfill (width : nat) (s : string) : string :=
  let fix zeros (k : nat) : string :=
    match k with O => "" | S k' => "0" +++ zeros k' end in
  zeros (width - String.length s)%nat +++ s.

Definition directive (d : datetime) (code : ascii) : string :=
  match code with
  | "Y"%char => dec (year d)
  | "m"%char => zfill 2 (dec (month d))
  | "d"%char => zfill 2 (dec (day d))
  | "H"%char => zfill 2 (dec (hour d))
  | "M"%char => zfill 2 (dec (minute d))
  | "S"%char => zfill 2 (dec (second d))
  | c => String "%" (String c "")
  end.

Fixpoint strftime (d : datetime) (fmt : string) : string :=
  match fmt with
  | String "%"%char (String code rest) => directive d code +++ strftime d rest
  | String c rest => String c (strftime d rest)
  | EmptyString => ""
  end.

End Py.
Import Py.

(* ===================================================================== *)
(** ** os.path (POSIX flavour) *)
(* ===================================================================== *)

Module OsPath.

Definition sep : ascii := "/"%char.

(** [p[:p.rfind('/') + 1]] *)
Fixpoint upto_last_sep (l : list ascii) : list ascii :=
  match l with
  | [] => []
  | c :: r =>
      match upto_last_sep r with
      | [] => if Ascii.eqb c sep then [c] else []
      | t => c :: t
      end
  end.

Fixpoint lstrip_sep (l : list ascii) : list ascii :=
  match l with
  | c :: r => if Ascii.eqb c sep then lstrip_sep r else l
  | [] => []
  end.

Definition rstrip_sep (l : list ascii) : list ascii :=
  rev (lstrip_sep (rev l)).

Definition dirname (p : string) : string :=
  let head := upto_last_sep (list_ascii_of_string p) in
  let head' :=
    if negb (forallb (Ascii.eqb sep) head) then rstrip_sep head else head in
  string_of_list_ascii head'.

Definition startswith_sep (s : string) : bool :=
  match s with String c _ => Ascii.eqb c sep | EmptyString => false end.

Fixpoint endswith_sep (s : string) : bool :=
  match s with
  | EmptyString => false
  | String c EmptyString => Ascii.eqb c sep
  | String _ r => endswith_sep r
  end.

Definition join2 (path b : string) : string :=
  if startswith_sep b then b
  else if (String.eqb path "") || endswith_sep path then path +++ b
  else path +++ "/" +++ b.

Definition join (a : string) (p : list string) : string :=
  fold_left join2 p a.

End OsPath.

(* ===================================================================== *)
(** ** The PDF library as the script sees it *)
(* ===================================================================== *)

Module Reportlab.

(** [reportlab.lib.colors]: the names the script imports. *)
Inductive Color : Type := black | blue | green | pink | magenta.

(** [reportlab.lib.pagesizes.letter], in points. *)
Definition letter : Z * Z := (612, 792).

(** Keyword-argument values. *)
Inductive Val : Type :=
| Str (s : string)
| Int (n : Z)
| Bool (b : bool)
| Col (c : Color)
| Options (l : list (string * string)).

(** The keyword arguments of one call, in the order written. *)
Definition kwargs : Type := list (string * Val).

Fixpoint kw (key : string) (args : kwargs) : option Val :=
  match args with
  | [] => None
  | (k, v) :: rest => if String.eqb k key then Some v else kw key rest
  end.

(** The four [acroForm] methods the script calls. *)
Inductive Kind : Type := textfield | checkbox | radio | choice.

(** One operation issued on a canvas. *)
Inductive Op : Type :=
| SetFont (psfontname : string) (size : Z)
| DrawString (x y : Z) (text : string)
| Line (x1 y1 x2 y2 : Z)
| Field (kind : Kind) (args : kwargs).

(** A canvas: the target file, the page size and the operations issued so
    far, oldest first. *)
Record Canvas : Type := mkCanvas {
  filename : string;
  pagesize : Z * Z;
  ops : list Op
}.

Definition add_op (c : Canvas) (o : Op) : Canvas :=
  {| filename := filename c; pagesize := pagesize c; ops := ops c ++ [o] |}.

End Reportlab.
Import Reportlab.

(* ===================================================================== *)
(** ** The world and the monad of library calls *)
(* ===================================================================== *)

(** A library call as it is attempted, whether or not it then raises. *)
Inductive Call : Type :=
| Makedirs (dir : string)
| NewCanvas (path : string)
| Draw (path : string) (o : Op)
| Save (path : string).

(** Everything outside the script that it can change.  All lists are kept
    newest first. *)
Record World : Type := mkWorld {
  stdout : list string;              (* lines printed *)
  files : list (string * Canvas);    (* documents saved, by path *)
  dirs : list string;                (* directories created *)
  calls : list Call                  (* library calls attempted *)
}.

(** Everything outside the script that it can only read: the clock, its own
    location ([__file__]) and which library call, counted from the first
    one ever attempted, fails and with what message. *)
Record Env : Type := mkEnv {
  clock : datetime;
  script : string;
  fault : nat -> option string
}.

Definition M (A : Type) : Type := Env -> World -> Result A * World.

Definition run {A} (m : M A) (env : Env) (w : World) : Result A * World :=
  m env w.

#[global] Instance Monad_M : Monad M := {|
  ret := fun A (a : A) (_ : Env) (w : World) => (Ok a, w);
  bind := fun A B (m : M A) (k : A -> M B) (env : Env) (w : World) =>
    match m env w with
    | (Ok a, w') => k a env w'
    | (Raise e, w') => (Raise e, w')
    end
|}.

Definition log (ev : Call) (w : World) : World :=
  {| stdout := stdout w; files := files w; dirs := dirs w;
     calls := ev :: calls w |}.

Definition write_file (path : string) (c : Canvas) (w : World) : World :=
  {| stdout := stdout w; files := (path, c) :: files w; dirs := dirs w;
     calls := calls w |}.

Definition make_dir (dir : string) (w : World) : World :=
  {| stdout := stdout w; files := files w; dirs := dir :: dirs w;
     calls := calls w |}.

Definition println (line : string) (w : World) : World :=
  {| stdout := line :: stdout w; files := files w; dirs := dirs w;
     calls := calls w |}.

(** A call into a library: it is logged, then either raises the fault the
    environment holds for it or returns [result] after [effect]. *)
Definition lib_call {A} (ev : Call) (result : A) (effect : World -> World)
  : M A :=
  fun env w =>
    match fault env (length (calls w)) with
    | Some msg => (Raise (Exception msg), log ev w)
    | None => (Ok result, effect (log ev w))
    end.

Definition print (line : string) : M unit :=
  fun _ w => (Ok tt, println line w).

Definition sys_exit (code : Z) : M unit :=
  fun _ w => (Raise (SystemExit code), w).

Definition datetime_now : M datetime :=
  fun env w => (Ok (clock env), w).

Definition dunder_file : M string :=
  fun env w => (Ok (script env), w).

Definition os_makedirs (dir : string) : M unit :=
  lib_call (Makedirs dir) tt (make_dir dir).

(** [try: body  except Exception as e: handler(str(e))] *)
Definition try_except_Exception {A} (body : M A) (handler : string -> M A)
  : M A :=
  fun env w =>
    match body env w with
    | (Raise (Exception msg), w') => handler msg env w'
    | other => other
    end.

(** [for item in items: body], threading the loop's mutable object. *)
Fixpoint for_in {A S} (items : list A) (body : S -> A -> M S) (s : S) : M S :=
  match items with
  | [] => ret s
  | item :: rest => s' <- body s item ;; for_in rest body s'
  end.

(** *** Canvas methods

    A method is a library call: the model records the call with its
    arguments and leaves to the fault table of the environment whether the
    library completes it.  Which calls the release of reportlab in use
    refuses is stated on the calls themselves, below under "The library as
    released": [acroForm.choice] with an empty [value] is one. *)

Definition canvas_Canvas (output_path : string) (size : Z * Z) : M Canvas :=
  lib_call (NewCanvas output_path)
           {| filename := output_path; pagesize := size; ops := [] |}
           (fun w => w).

Definition issue (c : Canvas) (o : Op) : M Canvas :=
  lib_call (Draw (filename c) o) (add_op c o) (fun w => w).

Definition setFont (c : Canvas) (psfontname : string) (size : Z) : M Canvas :=
  issue c (SetFont psfontname size).

Definition drawString (c : Canvas) (x y : Z) (text : string) : M Canvas :=
  issue c (DrawString x y text).

Definition line (c : Canvas) (x1 y1 x2 y2 : Z) : M Canvas :=
  issue c (Line x1 y1 x2 y2).

Definition acroForm_textfield (c : Canvas) (args : kwargs) : M Canvas :=
  issue c (Field textfield args).

Definition acroForm_checkbox (c : Canvas) (args : kwargs) : M Canvas :=
  issue c (Field checkbox args).

Definition acroForm_radio (c : Canvas) (args : kwargs) : M Canvas :=
  issue c (Field radio args).

Definition acroForm_choice (c : Canvas) (args : kwargs) : M Canvas :=
  issue c (Field choice args).

(** [save] is the first call that touches the file system.  A [save] that
    raises is recorded as having written nothing; what it leaves on disk in
    that case is the library's, and no statement below relies on it without
    saying so. *)
Definition save (c : Canvas) : M unit :=
  lib_call (Save (filename c)) tt (write_file (filename c) c).

(* ===================================================================== *)
(** ** The four generators *)
(* ===================================================================== *)

Definition create_basic_form_pdf (output_path : string) : M unit :=
  c <- canvas_Canvas output_path letter ;;
  c <- setFont c "Helvetica" 12 ;;

  (* Title *)
  c <- drawString c 50 750 "Basic Form Example" ;;
  c <- line c 50 745 550 745 ;;

  (* Text Fields *)
  c <- drawString c 50 700 "Name:" ;;
  c <- acroForm_textfield c
         [ ("name", Str "name");
           ("tooltip", Str "Enter your name");
           ("x", Int 150); ("y", Int 695);
           ("borderStyle", Str "inset");
           ("width", Int 300);
           ("height", Int 20);
           ("textColor", Col black);
           ("fillColor", Col pink);
           ("borderColor", Col black);
           ("forceBorder", Bool true) ] ;;

  c <- drawString c 50 650 "Email:" ;;
  c <- acroForm_textfield c
         [ ("name", Str "email");
           ("tooltip", Str "Enter your email");
           ("x", Int 150); ("y", Int 645);
           ("borderStyle", Str "inset");
           ("width", Int 300);
           ("height", Int 20);
           ("textColor", Col black);
           ("fillColor", Col pink);
           ("borderColor", Col black);
           ("forceBorder", Bool true) ] ;;

  (* Checkboxes *)
  c <- drawString c 50 600 "Subscribe:" ;;
  c <- acroForm_checkbox c
         [ ("name", Str "subscribe");
           ("tooltip", Str "Check to subscribe");
           ("x", Int 150); ("y", Int 598);
           ("buttonStyle", Str "check");
           ("borderColor", Col black);
           ("fillColor", Col green);
           ("textColor", Col black);
           ("forceBorder", Bool true) ] ;;

  (* Radio Buttons *)
  c <- drawString c 50 550 "Gender:" ;;
  c <- acroForm_radio c
         [ ("name", Str "gender");
           ("tooltip", Str "Select gender");
           ("value", Str "male");
           ("selected", Bool false);
           ("x", Int 150); ("y", Int 548);
           ("buttonStyle", Str "circle");
           ("borderStyle", Str "solid");
           ("shape", Str "circle");
           ("borderColor", Col black);
           ("fillColor", Col magenta);
           ("textColor", Col black);
           ("forceBorder", Bool true) ] ;;
  c <- drawString c 175 550 "Male" ;;

  c <- acroForm_radio c
         [ ("name", Str "gender");
           ("tooltip", Str "Select gender");
           ("value", Str "female");
           ("selected", Bool false);
           ("x", Int 250); ("y", Int 548);
           ("buttonStyle", Str "circle");
           ("borderStyle", Str "solid");
           ("shape", Str "circle");
           ("borderColor", Col black);
           ("fillColor", Col magenta);
           ("textColor", Col black);
           ("forceBorder", Bool true) ] ;;
  c <- drawString c 275 550 "Female" ;;

  (* Simple Dropdown *)
  c <- drawString c 50 500 "Country:" ;;
  let options :=
    [("us", "United States"); ("ca", "Canada"); ("uk", "United Kingdom")] in
  c <- acroForm_choice c
         [ ("name", Str "country");
           ("tooltip", Str "Select your country");
           ("value", Str "us");
           ("x", Int 150); ("y", Int 495);
           ("width", Int 200);
           ("height", Int 20);
           ("options", Options options);
           ("borderColor", Col black);
           ("fillColor", Col pink);
           ("textColor", Col black);
           ("forceBorder", Bool true) ] ;;

  (* Note: Buttons are not supported by reportlab's AcroForm *)
  c <- drawString c 50 400
         "Note: Submit buttons would go here in a real form" ;;

  save c ;;
  print ("Created: " +++ output_path).

Definition create_text_fields_pdf (output_path : string) : M unit :=
  c <- canvas_Canvas output_path letter ;;
  c <- setFont c "Helvetica" 12 ;;

  (* Title *)
  c <- drawString c 50 750 "Text Field Examples" ;;
  c <- line c 50 745 550 745 ;;

  (* Regular text field *)
  c <- drawString c 50 700 "Regular Text:" ;;
  c <- acroForm_textfield c
         [ ("name", Str "regularText");
           ("tooltip", Str "Regular text field");
           ("x", Int 200); ("y", Int 695);
           ("width", Int 250);
           ("height", Int 20);
           ("borderStyle", Str "inset") ] ;;

  (* Required field *)
  c <- drawString c 50 650 "Required Field:" ;;
  c <- acroForm_textfield c
         [ ("name", Str "requiredField");
           ("tooltip", Str "This field is required");
           ("x", Int 200); ("y", Int 645);
           ("width", Int 250);
           ("height", Int 20);
           ("borderStyle", Str "inset");
           ("fieldFlags", Str "required") ] ;;

  (* Max length field *)
  c <- drawString c 50 600 "Max 10 chars:" ;;
  c <- acroForm_textfield c
         [ ("name", Str "maxLengthField");
           ("tooltip", Str "Maximum 10 characters");
           ("x", Int 200); ("y", Int 595);
           ("width", Int 150);
           ("height", Int 20);
           ("borderStyle", Str "inset");
           ("maxlen", Int 10) ] ;;

  (* Multiline text *)
  c <- drawString c 50 550 "Comments:" ;;
  c <- acroForm_textfield c
         [ ("name", Str "comments");
           ("tooltip", Str "Multiline text field");
           ("x", Int 200); ("y", Int 470);
           ("width", Int 250);
           ("height", Int 75);
           ("borderStyle", Str "inset");
           ("fieldFlags", Str "multiline") ] ;;

  (* Password field *)
  c <- drawString c 50 430 "Password:" ;;
  c <- acroForm_textfield c
         [ ("name", Str "password");
           ("tooltip", Str "Password field");
           ("x", Int 200); ("y", Int 425);
           ("width", Int 250);
           ("height", Int 20);
           ("borderStyle", Str "inset");
           ("fieldFlags", Str "password") ] ;;

  (* Read-only field *)
  c <- drawString c 50 380 "Read-only:" ;;
  c <- acroForm_textfield c
         [ ("name", Str "readOnly");
           ("tooltip", Str "Read-only field");
           ("x", Int 200); ("y", Int 375);
           ("width", Int 250);
           ("height", Int 20);
           ("borderStyle", Str "inset");
           ("fieldFlags", Str "readOnly");
           ("value", Str "This cannot be changed") ] ;;

  save c ;;
  print ("Created: " +++ output_path).

Definition create_choice_fields_pdf (output_path : string) : M unit :=
  c <- canvas_Canvas output_path letter ;;
  c <- setFont c "Helvetica" 12 ;;

  (* Title *)
  c <- drawString c 50 750 "Choice Field Examples" ;;
  c <- line c 50 745 550 745 ;;

  (* Simple dropdown *)
  c <- drawString c 50 700 "Simple Dropdown:" ;;
  let options1 :=
    [("opt1", "Option 1"); ("opt2", "Option 2"); ("opt3", "Option 3")] in
  c <- acroForm_choice c
         [ ("name", Str "simpleDropdown");
           ("tooltip", Str "Select an option");
           ("value", Str "opt1");
           ("x", Int 200); ("y", Int 695);
           ("width", Int 200);
           ("height", Int 20);
           ("options", Options options1) ] ;;

  (* Dropdown with many options *)
  c <- drawString c 50 650 "State:" ;;
  let states :=
    [ ("", "-- Select State --");
      ("AL", "Alabama"); ("AK", "Alaska"); ("AZ", "Arizona");
      ("AR", "Arkansas"); ("CA", "California"); ("CO", "Colorado");
      ("CT", "Connecticut"); ("DE", "Delaware"); ("FL", "Florida");
      ("GA", "Georgia"); ("HI", "Hawaii"); ("ID", "Idaho") ] in
  c <- acroForm_choice c
         [ ("name", Str "state");
           ("tooltip", Str "Select your state");
           ("value", Str "");
           ("x", Int 200); ("y", Int 645);
           ("width", Int 200);
           ("height", Int 20);
           ("options", Options states) ] ;;

  (* Radio button groups *)
  c <- drawString c 50 590 "Size:" ;;
  let sizes := [("S", 50); ("M", 100); ("L", 150); ("XL", 200)] in
  c <- for_in sizes (fun c '(value, x_offset) =>
         c <- acroForm_radio c
                [ ("name", Str "size");
                  ("tooltip", Str ("Size " +++ value));
                  ("value", Str (lower value));
                  ("selected", Bool (String.eqb value "M"));  (* Default to M *)
                  ("x", Int (150 + x_offset));
                  ("y", Int 588);
                  ("buttonStyle", Str "circle") ] ;;
         drawString c (170 + x_offset) 590 value) c ;;

  (* Multiple checkboxes (simulating multi-select) *)
  c <- drawString c 50 540 "Features:" ;;
  let features :=
    [ ("feature1", "Feature 1", 0);
      ("feature2", "Feature 2", 100);
      ("feature3", "Feature 3", 200) ] in
  c <- for_in features (fun c '(name, label, x_offset) =>
         c <- acroForm_checkbox c
                [ ("name", Str name);
                  ("tooltip", Str label);
                  ("x", Int (150 + x_offset));
                  ("y", Int 538);
                  ("buttonStyle", Str "check") ] ;;
         drawString c (170 + x_offset) 540 label) c ;;

  save c ;;
  print ("Created: " +++ output_path).

Definition create_mixed_form_pdf (output_path : string) : M unit :=
  c <- canvas_Canvas output_path letter ;;
  c <- setFont c "Helvetica-Bold" 14 ;;

  (* Title *)
  c <- drawString c 50 750 "Registration Form" ;;
  c <- line c 50 745 550 745 ;;

  c <- setFont c "Helvetica" 11 ;;

  (* Personal Information *)
  c <- drawString c 50 720 "First Name:" ;;
  c <- acroForm_textfield c
         [ ("name", Str "firstName");
           ("x", Int 130); ("y", Int 715);
           ("width", Int 150);
           ("height", Int 20);
           ("borderStyle", Str "inset");
           ("fieldFlags", Str "required") ] ;;

  c <- drawString c 300 720 "Last Name:" ;;
  c <- acroForm_textfield c
         [ ("name", Str "lastName");
           ("x", Int 380); ("y", Int 715);
           ("width", Int 150);
           ("height", Int 20);
           ("borderStyle", Str "inset");
           ("fieldFlags", Str "required") ] ;;

  (* Email *)
  c <- drawString c 50 680 "Email:" ;;
  c <- acroForm_textfield c
         [ ("name", Str "emailAddress");
           ("x", Int 130); ("y", Int 675);
           ("width", Int 400);
           ("height", Int 20);
           ("borderStyle", Str "inset");
           ("fieldFlags", Str "required") ] ;;

  (* Age *)
  c <- drawString c 50 640 "Age:" ;;
  c <- acroForm_textfield c
         [ ("name", Str "age");
           ("x", Int 130); ("y", Int 635);
           ("width", Int 50);
           ("height", Int 20);
           ("borderStyle", Str "inset");
           ("maxlen", Int 3) ] ;;

  (* Country dropdown *)
  c <- drawString c 200 640 "Country:" ;;
  let countries :=
    [ ("", "-- Select --");
      ("us", "United States");
      ("ca", "Canada");
      ("mx", "Mexico");
      ("uk", "United Kingdom");
      ("de", "Germany");
      ("fr", "France") ] in
  c <- acroForm_choice c
         [ ("name", Str "countrySelect");
           ("value", Str "");
           ("x", Int 280); ("y", Int 635);
           ("width", Int 150);
           ("height", Int 20);
           ("options", Options countries) ] ;;

  (* Newsletter checkbox *)
  c <- drawString c 50 600 "Subscribe to newsletter:" ;;
  c <- acroForm_checkbox c
         [ ("name", Str "newsletter");
           ("x", Int 200); ("y", Int 598);
           ("buttonStyle", Str "check") ] ;;

  (* Terms checkbox *)
  c <- drawString c 50 570 "I agree to the terms and conditions:" ;;
  c <- acroForm_checkbox c
         [ ("name", Str "terms");
           ("x", Int 250); ("y", Int 568);
           ("buttonStyle", Str "check");
           ("fieldFlags", Str "required") ] ;;

  (* Note: Submit button would go here *)
  c <- drawString c 50 500
         "Note: Submit button would go here in a real form" ;;

  (* Footer *)
  c <- setFont c "Helvetica" 8 ;;
  now <- datetime_now ;;
  c <- drawString c 50 50
         ("Form generated on " +++ strftime now "%Y-%m-%d %H:%M:%S") ;;

  save c ;;
  print ("Created: " +++ output_path).

(* ===================================================================== *)
(** ** The entry point *)
(* ===================================================================== *)

Definition newline : string := String (ascii_of_N 10) "".

Definition main : M unit :=
  (* Create output directory *)
  file <- dunder_file ;;
  let output_dir :=
    OsPath.join (OsPath.dirname (OsPath.dirname file)) ["docs"; "test-forms"] in
  os_makedirs output_dir ;;

  (* Generate test PDFs *)
  print "Generating test PDF forms..." ;;

  try_except_Exception
    (create_basic_form_pdf (OsPath.join output_dir ["basic-form.pdf"]) ;;
     create_text_fields_pdf (OsPath.join output_dir ["text-fields.pdf"]) ;;
     create_choice_fields_pdf (OsPath.join output_dir ["choice-fields.pdf"]) ;;
     create_mixed_form_pdf (OsPath.join output_dir ["mixed-form.pdf"]) ;;

     print (newline +++ "All test forms have been generated in: " +++ output_dir) ;;
     print (newline +++ "Generated PDFs:") ;;
     print "- basic-form.pdf: Simple form with basic field types" ;;
     print "- text-fields.pdf: Various text field configurations" ;;
     print "- choice-fields.pdf: Dropdowns, radio buttons, and checkboxes" ;;
     print "- mixed-form.pdf: Realistic form with mixed field types")
    (fun e =>
       print ("Error generating PDFs: " +++ e) ;;
       sys_exit 1).

(* ===================================================================== *)
(** ** Test runs *)
(* ===================================================================== *)

Definition world0 : World :=
  {| stdout := []; files := []; dirs := []; calls := [] |}.

Definition noon : datetime :=
  {| year := 2024; month := 3; day := 9; hour := 12; minute := 0; second := 7 |}.

(** An environment in which no library call fails. *)
Definition calm : Env :=
  {| clock := noon; script := "/repo/scripts/generate_simple_forms.py";
     fault := fun _ => None |}.

(** An environment that fails at one library call, counted from 0. *)
Definition failing_at (k : nat) (msg : string) : Env :=
  {| clock := noon; script := "/repo/scripts/generate_simple_forms.py";
     fault := fun i => if Nat.eqb i k then Some msg else None |}.

(* ===================================================================== *)
(** ** Reading a generated document *)
(* ===================================================================== *)

(** The document last saved under a path. *)
Fixpoint lookup_file (path : string) (fs : list (string * Canvas))
  : option Canvas :=
  match fs with
  | [] => None
  | (p, c) :: rest => if String.eqb p path then Some c else lookup_file path rest
  end.

Definition read_file (path : string) (w : World) : option Canvas :=
  lookup_file path (files w).

(** A field definition: the method called and its keyword arguments. *)
Definition FieldDef : Type := Kind * kwargs.

Definition field_of (o : Op) : list FieldDef :=
  match o with
  | Field k args => [(k, args)]
  | _ => []
  end.

(** The field definitions of a document, in the order emitted. *)
Definition fields (c : Canvas) : list FieldDef := flat_map field_of (ops c).

Definition arg_str (key : string) (f : FieldDef) : option string :=
  match kw key (snd f) with Some (Str s) => Some s | _ => None end.

Definition arg_int (key : string) (f : FieldDef) : option Z :=
  match kw key (snd f) with Some (Int n) => Some n | _ => None end.

Definition arg_bool (key : string) (f : FieldDef) : option bool :=
  match kw key (snd f) with Some (Bool b) => Some b | _ => None end.

Definition arg_options (key : string) (f : FieldDef)
  : option (list (string * string)) :=
  match kw key (snd f) with Some (Options l) => Some l | _ => None end.

Definition has_name (n : string) (f : FieldDef) : bool :=
  match arg_str "name" f with Some s => String.eqb s n | None => false end.

Definition kind_eqb (a b : Kind) : bool :=
  match a, b with
  | textfield, textfield | checkbox, checkbox
  | radio, radio | choice, choice => true
  | _, _ => false
  end.

Definition has_kind (k : Kind) (f : FieldDef) : bool := kind_eqb (fst f) k.

(** All the widgets of a document that carry a given field name. *)
Definition named (n : string) (c : Canvas) : list FieldDef :=
  filter (has_name n) (fields c).

(** Name and kind of every widget, in order. *)
Definition schema (c : Canvas) : list (option string * Kind) :=
  map (fun f => (arg_str "name" f, fst f)) (fields c).

(** The four operations with the file names [main] gives them. *)
Definition generators : list (string * (string -> M unit)) :=
  [ ("basic-form.pdf", create_basic_form_pdf);
    ("text-fields.pdf", create_text_fields_pdf);
    ("choice-fields.pdf", create_choice_fields_pdf);
    ("mixed-form.pdf", create_mixed_form_pdf) ].

(** The operations a generator issues when nothing fails, read off a run of
    the generator itself. *)
Definition issued (g : string -> M unit) (now : datetime) : list Op :=
  let env := {| clock := now; script := ""; fault := fun _ => None |} in
  match files (snd (run (g "") env world0)) with
  | (_, c) :: _ => ops c
  | [] => []
  end.

(* ===================================================================== *)
(** ** Successful runs do not depend on the fault table *)
(* ===================================================================== *)

Definition quiet (env : Env) : Env :=
  {| clock := clock env; script := script env; fault := fun _ => None |}.

(** A computation is steady when each of its successful runs is also its
    run with no faults at all. *)
Definition Steady {A} (m : M A) : Prop :=
  forall env w a w',
    run m env w = (Ok a, w') -> run m (quiet env) w = (Ok a, w').

Section SteadyRules.

Context {A B : Type}.

Lemma steady_ret (a : A) : Steady (ret a).
Proof. intros env w a' w' H. exact H. Qed.

Lemma steady_bind (m : M A) (k : A -> M B) :
  Steady m -> (forall a, Steady (k a)) -> Steady (bind m k).
Proof.
  intros Hm Hk env w b w'. unfold run. cbn.
  destruct (m env w) as [[a | e] w1] eqn:E; [| discriminate].
  apply Hm in E. unfold run in E. rewrite E. apply Hk.
Qed.

Lemma steady_lib_call (ev : Call) (a : A) (effect : World -> World) :
  Steady (lib_call ev a effect).
Proof.
  intros env w a' w'. unfold run, lib_call. cbn.
  destruct (fault env (length (calls w))); [discriminate | auto].
Qed.

End SteadyRules.

Lemma steady_for_in {A S} (items : list A) (body : S -> A -> M S) :
  (forall s item, Steady (body s item)) ->
  forall s, Steady (for_in items body s).
Proof.
  intros Hbody. induction items as [| item rest IH]; intros s; cbn [for_in].
  - apply steady_ret.
  - apply steady_bind; [apply Hbody | apply IH].
Qed.

Lemma steady_print (s : string) : Steady (print s).
Proof. intros env w a w' H. exact H. Qed.

Lemma steady_datetime_now : Steady datetime_now.
Proof. intros env w a w' H. exact H. Qed.

Create HintDb steady.
#[local] Hint Resolve steady_ret steady_lib_call steady_print
  steady_datetime_now : steady.

Ltac steady :=
  unfold canvas_Canvas, setFont, drawString, line, acroForm_textfield,
    acroForm_checkbox, acroForm_radio, acroForm_choice, save, issue;
  cbv zeta;
  repeat first
    [ apply steady_bind; [| intros ?]
    | apply steady_for_in; [intros ? ?; repeat match goal with
                                               | x : (_ * _)%type |- _ => destruct x
                                               end |]
    | solve [auto with steady] ].

Lemma create_basic_form_pdf_steady p : Steady (create_basic_form_pdf p).
Proof. unfold create_basic_form_pdf. steady. Qed.

Lemma create_text_fields_pdf_steady p : Steady (create_text_fields_pdf p).
Proof. unfold create_text_fields_pdf. steady. Qed.

Lemma create_choice_fields_pdf_steady p : Steady (create_choice_fields_pdf p).
Proof. unfold create_choice_fields_pdf. steady. Qed.

Lemma create_mixed_form_pdf_steady p : Steady (create_mixed_form_pdf p).
Proof. unfold create_mixed_form_pdf. steady. Qed.

(* ===================================================================== *)
(** ** What a successful generator run leaves behind *)
(* ===================================================================== *)

(** The document a generator saves under [p] at clock value [now]. *)
Definition document (g : string -> M unit) (now : datetime) (p : string)
  : Canvas :=
  {| filename := p; pagesize := letter; ops := issued g now |}.

Ltac run_quietly H :=
  unfold run in H; vm_compute in H;
  injection H as <-; vm_compute; auto.

Lemma create_basic_form_pdf_saves env w p w' :
  run (create_basic_form_pdf p) env w = (Ok tt, w') ->
  files w' = (p, document create_basic_form_pdf (clock env) p) :: files w
  /\ stdout w' = ("Created: " +++ p) :: stdout w.
Proof. intros H. apply create_basic_form_pdf_steady in H. run_quietly H. Qed.

Lemma create_text_fields_pdf_saves env w p w' :
  run (create_text_fields_pdf p) env w = (Ok tt, w') ->
  files w' = (p, document create_text_fields_pdf (clock env) p) :: files w
  /\ stdout w' = ("Created: " +++ p) :: stdout w.
Proof. intros H. apply create_text_fields_pdf_steady in H. run_quietly H. Qed.

Lemma create_choice_fields_pdf_saves env w p w' :
  run (create_choice_fields_pdf p) env w = (Ok tt, w') ->
  files w' = (p, document create_choice_fields_pdf (clock env) p) :: files w
  /\ stdout w' = ("Created: " +++ p) :: stdout w.
Proof. intros H. apply create_choice_fields_pdf_steady in H. run_quietly H. Qed.

Lemma create_mixed_form_pdf_saves env w p w' :
  run (create_mixed_form_pdf p) env w = (Ok tt, w') ->
  files w' = (p, document create_mixed_form_pdf (clock env) p) :: files w
  /\ stdout w' = ("Created: " +++ p) :: stdout w.
Proof. intros H. apply create_mixed_form_pdf_steady in H. run_quietly H. Qed.

Lemma read_file_head p c rest w doc :
  files w = (p, c) :: rest -> read_file p w = Some doc -> doc = c.
Proof.
  unfold read_file. intros ->. cbn. rewrite String.eqb_refl. congruence.
Qed.

Lemma create_basic_form_pdf_document env w p w' doc :
  run (create_basic_form_pdf p) env w = (Ok tt, w') ->
  read_file p w' = Some doc ->
  doc = document create_basic_form_pdf (clock env) p.
Proof.
  intros Hrun. apply create_basic_form_pdf_saves in Hrun as [Hf _].
  eauto using read_file_head.
Qed.

Lemma create_text_fields_pdf_document env w p w' doc :
  run (create_text_fields_pdf p) env w = (Ok tt, w') ->
  read_file p w' = Some doc ->
  doc = document create_text_fields_pdf (clock env) p.
Proof.
  intros Hrun. apply create_text_fields_pdf_saves in Hrun as [Hf _].
  eauto using read_file_head.
Qed.

Lemma create_choice_fields_pdf_document env w p w' doc :
  run (create_choice_fields_pdf p) env w = (Ok tt, w') ->
  read_file p w' = Some doc ->
  doc = document create_choice_fields_pdf (clock env) p.
Proof.
  intros Hrun. apply create_choice_fields_pdf_saves in Hrun as [Hf _].
  eauto using read_file_head.
Qed.

Lemma create_mixed_form_pdf_document env w p w' doc :
  run (create_mixed_form_pdf p) env w = (Ok tt, w') ->
  read_file p w' = Some doc ->
  doc = document create_mixed_form_pdf (clock env) p.
Proof.
  intros Hrun. apply create_mixed_form_pdf_saves in Hrun as [Hf _].
  eauto using read_file_head.
Qed.

(** Whichever of the four operations ran, the document read back from its
    output path is the one it issues when nothing fails. *)
Lemma generator_document name g :
  In (name, g) generators ->
  forall env w p w' doc,
    run (g p) env w = (Ok tt, w') ->
    read_file p w' = Some doc ->
    doc = document g (clock env) p.
Proof.
  intros Hin env w p w' doc.
  unfold generators in Hin. cbn [In] in Hin.
  destruct Hin as [E | [E | [E | [E | []]]]]; injection E as _ <-.
  - apply create_basic_form_pdf_document.
  - apply create_text_fields_pdf_document.
  - apply create_choice_fields_pdf_document.
  - apply create_mixed_form_pdf_document.
Qed.

(** With no faults every operation completes, and the document is there to
    be read back. *)
Lemma generator_completes name g env w p :
  In (name, g) generators ->
  exists w',
    run (g p) (quiet env) w = (Ok tt, w')
    /\ read_file p w' = Some (document g (clock env) p).
Proof.
  intros Hin.
  destruct (run (g p) (quiet env) w) as [r w'] eqn:Hrun.
  assert (Hr : r = Ok tt).
  { unfold generators in Hin. cbn [In] in Hin.
    destruct Hin as [E | [E | [E | [E | []]]]]; injection E as _ <-;
      unfold run in Hrun; vm_compute in Hrun; congruence. }
  subst r. exists w'. split; [reflexivity |].
  assert (Hf : files w' = (p, document g (clock env) p) :: files w).
  { unfold generators in Hin. cbn [In] in Hin.
    destruct Hin as [E | [E | [E | [E | []]]]]; injection E as _ <-.
    - apply (create_basic_form_pdf_saves (quiet env) w p w' Hrun).
    - apply (create_text_fields_pdf_saves (quiet env) w p w' Hrun).
    - apply (create_choice_fields_pdf_saves (quiet env) w p w' Hrun).
    - apply (create_mixed_form_pdf_saves (quiet env) w p w' Hrun). }
  unfold read_file. rewrite Hf. cbn. rewrite String.eqb_refl. reflexivity.
Qed.

(** Replace the document read back after a successful run by the one the
    generator issues. *)
Ltac identify_document Hrun Hread :=
  match type of Hrun with
  | run (create_basic_form_pdf _) _ _ = _ =>
      rewrite (create_basic_form_pdf_document _ _ _ _ _ Hrun Hread)
  | run (create_text_fields_pdf _) _ _ = _ =>
      rewrite (create_text_fields_pdf_document _ _ _ _ _ Hrun Hread)
  | run (create_choice_fields_pdf _) _ _ = _ =>
      rewrite (create_choice_fields_pdf_document _ _ _ _ _ Hrun Hread)
  | run (create_mixed_form_pdf _) _ _ = _ =>
      rewrite (create_mixed_form_pdf_document _ _ _ _ _ Hrun Hread)
  end.

(** The single widget carrying a name, if there is exactly one. *)
Definition the_field (n : string) (c : Canvas) : option FieldDef :=
  match named n c with
  | [f] => Some f
  | _ => None
  end.

(** The option pairs of the one choice field carrying a name. *)
Definition choice_options (n : string) (c : Canvas)
  : option (list (string * string)) :=
  match the_field n c with
  | Some f => if has_kind choice f then arg_options "options" f else None
  | None => None
  end.

Definition is_blank (o : string * string) : bool := String.eqb (fst o) "".

(* ===================================================================== *)
(** ** text-fields.pdf *)
(* ===================================================================== *)

(** C3.  In the document written by [create_text_fields_pdf]:
    [maxLengthField] is a text field emitted with [maxlen=10]; [readOnly]
    is a text field emitted with value "This cannot be changed" and the
    [readOnly] field flag; [password] is a text field emitted with the
    [password] field flag; [comments] is a text field emitted with the
    [multiline] field flag. *)
Theorem text_field_variants env w p w' doc :
  run (create_text_fields_pdf p) env w = (Ok tt, w') ->
  read_file p w' = Some doc ->
  exists f_max f_ro f_pw f_cm,
    (the_field "maxLengthField" doc = Some f_max
     /\ fst f_max = textfield
     /\ arg_int "maxlen" f_max = Some 10)
    /\ (the_field "readOnly" doc = Some f_ro
        /\ fst f_ro = textfield
        /\ arg_str "value" f_ro = Some "This cannot be changed"
        /\ arg_str "fieldFlags" f_ro = Some "readOnly")
    /\ (the_field "password" doc = Some f_pw
        /\ fst f_pw = textfield
        /\ arg_str "fieldFlags" f_pw = Some "password")
    /\ (the_field "comments" doc = Some f_cm
        /\ fst f_cm = textfield
        /\ arg_str "fieldFlags" f_cm = Some "multiline").
Proof.
  intros Hrun Hread. identify_document Hrun Hread.
  do 4 eexists.
  repeat split; try (vm_compute; reflexivity).
Qed.

Lemma text_field_variants_witness :
  exists f, the_field "maxLengthField"
              (document create_text_fields_pdf noon "text-fields.pdf") = Some f
            /\ arg_int "maxlen" f = Some 10.
Proof.
  destruct (text_field_variants calm world0 "text-fields.pdf"
              (snd (run (create_text_fields_pdf "text-fields.pdf") calm world0))
              (document create_text_fields_pdf noon "text-fields.pdf"))
    as (f_max & _ & _ & _ & (H1 & _ & H2) & _).
  - vm_compute. reflexivity.
  - vm_compute. reflexivity.
  - exists f_max. split; assumption.
Defined.

(* ===================================================================== *)
(** ** basic-form.pdf *)
(* ===================================================================== *)

(** C5.  The document written by [create_basic_form_pdf] holds exactly six
    widgets: text fields [name] and [email], checkbox [subscribe], two
    radio buttons sharing the name [gender], and choice field [country],
    whose option list has exactly three entries. *)
Theorem basic_form_field_set env w p w' doc :
  run (create_basic_form_pdf p) env w = (Ok tt, w') ->
  read_file p w' = Some doc ->
  schema doc = [ (Some "name", textfield);
                 (Some "email", textfield);
                 (Some "subscribe", checkbox);
                 (Some "gender", radio);
                 (Some "gender", radio);
                 (Some "country", choice) ]
  /\ map (arg_str "value") (named "gender" doc) = [Some "male"; Some "female"]
  /\ exists opts, choice_options "country" doc = Some opts
                  /\ length opts = 3%nat.
Proof.
  intros Hrun Hread. identify_document Hrun Hread.
  split; [reflexivity |]. split; [reflexivity |].
  eexists. split; [vm_compute; reflexivity | reflexivity].
Qed.

Lemma basic_form_field_set_witness :
  schema (document create_basic_form_pdf noon "basic-form.pdf")
  = [ (Some "name", textfield);
      (Some "email", textfield);
      (Some "subscribe", checkbox);
      (Some "gender", radio);
      (Some "gender", radio);
      (Some "country", choice) ].
Proof.
  apply (basic_form_field_set calm world0 "basic-form.pdf"
           (snd (run (create_basic_form_pdf "basic-form.pdf") calm world0))).
  - vm_compute. reflexivity.
  - vm_compute. reflexivity.
Defined.

(** C10.  In the document written by [create_basic_form_pdf], both widgets
    named [gender] are emitted with [selected=False]: the group has no
    default selection, in every run that completes. *)
Theorem gender_no_default env w p w' doc :
  run (create_basic_form_pdf p) env w = (Ok tt, w') ->
  read_file p w' = Some doc ->
  map fst (named "gender" doc) = [radio; radio]
  /\ map (arg_bool "selected") (named "gender" doc) = [Some false; Some false].
Proof.
  intros Hrun Hread. identify_document Hrun Hread.
  split; reflexivity.
Qed.

Lemma gender_no_default_witness :
  map (arg_bool "selected")
      (named "gender" (document create_basic_form_pdf noon "basic-form.pdf"))
  = [Some false; Some false].
Proof.
  apply (gender_no_default calm world0 "basic-form.pdf"
           (snd (run (create_basic_form_pdf "basic-form.pdf") calm world0))).
  - vm_compute. reflexivity.
  - vm_compute. reflexivity.
Defined.

(* ===================================================================== *)
(** ** Properties of all four documents *)
(* ===================================================================== *)

Definition choice_fields (c : Canvas) : list FieldDef :=
  filter (has_kind choice) (fields c).

(** The [value] a choice field is created with is the empty string or the
    value component of one of its option pairs. *)
Definition default_among_options (f : FieldDef) : Prop :=
  exists v opts,
    arg_str "value" f = Some v
    /\ arg_options "options" f = Some opts
    /\ (v = "" \/ In v (map fst opts)).

Ltac each_generator Hin :=
  unfold generators in Hin; cbn [In] in Hin;
  destruct Hin as [Hin | [Hin | [Hin | [Hin | []]]]];
  injection Hin as <- <-.

Ltac list_out t :=
  let l := fresh "l" in
  set (l := t); vm_compute in l; subst l.

(** The choice fields of the four documents, by name. *)
Lemma choice_field_names now p :
  map (fun g => map (arg_str "name") (choice_fields (document (snd g) now p)))
      generators
  = [ [Some "country"];
      [];
      [Some "simpleDropdown"; Some "state"];
      [Some "countrySelect"] ].
Proof. vm_compute. reflexivity. Qed.

(** C8.  Every choice field emitted by any of the four operations is
    created with a [value] that is empty or equal to the value component
    of one of that field's option pairs. *)
Theorem choice_default_is_option name g env w p w' doc :
  In (name, g) generators ->
  run (g p) env w = (Ok tt, w') ->
  read_file p w' = Some doc ->
  Forall default_among_options (choice_fields doc).
Proof.
  intros Hin Hrun Hread.
  rewrite (generator_document _ _ Hin _ _ _ _ _ Hrun Hread).
  clear Hrun Hread. each_generator Hin.
  all: match goal with |- Forall _ ?t => list_out t end.
  all: repeat constructor.
  all: unfold default_among_options; do 2 eexists;
    (split; [reflexivity | split; [reflexivity | cbn; auto 10]]).
Qed.

Lemma choice_default_is_option_witness :
  Forall default_among_options
    (choice_fields (document create_choice_fields_pdf noon "choice-fields.pdf")).
Proof.
  apply (choice_default_is_option "choice-fields.pdf" create_choice_fields_pdf
           calm world0 "choice-fields.pdf"
           (snd (run (create_choice_fields_pdf "choice-fields.pdf") calm world0))).
  - unfold generators. cbn [In]. right. right. left. reflexivity.
  - vm_compute. reflexivity.
  - vm_compute. reflexivity.
Defined.

Section LibraryDefaults.

(** Sizes the PDF library falls back on when a call leaves them out:
    width and height of a text or choice field, and the side of the
    square a checkbox or radio button is drawn in.  (reportlab uses 120,
    36 and 20.) *)
Variables default_width default_height default_size : Z.

Definition int_or (key : string) (default : Z) (f : FieldDef) : Z :=
  match kw key (snd f) with
  | Some (Int n) => n
  | _ => default
  end.

Definition extent (f : FieldDef) : Z * Z :=
  match fst f with
  | textfield | choice =>
      (int_or "width" default_width f, int_or "height" default_height f)
  | checkbox | radio =>
      (int_or "size" default_size f, int_or "size" default_size f)
  end.

(** The rectangle (x, y, x + width, y + height) of a widget whose call
    gives its position. *)
Definition bbox (f : FieldDef) : option (Z * Z * Z * Z) :=
  match arg_int "x" f, arg_int "y" f with
  | Some x, Some y => Some (x, y, x + fst (extent f), y + snd (extent f))
  | _, _ => None
  end.

Definition within (page : Z * Z) (b : Z * Z * Z * Z) : Prop :=
  let '(x0, y0, x1, y1) := b in
  0 <= x0 /\ x0 <= x1 /\ x1 <= fst page
  /\ 0 <= y0 /\ y0 <= y1 /\ y1 <= snd page.

Definition on_page (page : Z * Z) (f : FieldDef) : Prop :=
  exists b, bbox f = Some b /\ within page b.

(** C9.  Every widget emitted by any of the four operations has its
    rectangle (x, y, x + width, y + height), taken from the call's own
    width and height or from the library's default size, inside the
    612 x 792 page the canvas is created with.  Text and choice fields
    always pass their width and height; checkboxes and radio buttons
    never pass a size, and for them the statement holds for any default
    side from 0 to 194 points. *)
Theorem widgets_on_page name g env w p w' doc :
  0 <= default_size <= 194 ->
  In (name, g) generators ->
  run (g p) env w = (Ok tt, w') ->
  read_file p w' = Some doc ->
  pagesize doc = (612, 792)
  /\ Forall (on_page (612, 792)) (fields doc).
Proof.
  intros Hsize Hin Hrun Hread.
  rewrite (generator_document _ _ Hin _ _ _ _ _ Hrun Hread).
  clear Hrun Hread. split; [reflexivity |].
  each_generator Hin.
  all: match goal with |- Forall _ ?t => list_out t end.
  all: repeat constructor.
  all: eexists; (split; [reflexivity | cbv -[Z.add Z.le]; lia]).
Qed.

End LibraryDefaults.

Lemma widgets_on_page_witness :
  Forall (on_page 120 36 20 (612, 792))
         (fields (document create_mixed_form_pdf noon "mixed-form.pdf")).
Proof.
  apply (widgets_on_page 120 36 20 "mixed-form.pdf" create_mixed_form_pdf
           calm world0 "mixed-form.pdf"
           (snd (run (create_mixed_form_pdf "mixed-form.pdf") calm world0))).
  - lia.
  - unfold generators. cbn [In]. right. right. right. left. reflexivity.
  - vm_compute. reflexivity.
  - vm_compute. reflexivity.
Defined.

(* ===================================================================== *)
(** ** Two runs of one operation *)
(* ===================================================================== *)

Definition midnight : datetime :=
  {| year := 2025; month := 12; day := 31; hour := 0; minute := 0; second := 0 |}.

(** Another fault-free environment, at another time and place. *)
Definition calm_later : Env :=
  {| clock := midnight; script := "/tmp/generate_simple_forms.py";
     fault := fun _ => None |}.

(** A world in which something was printed and saved before. *)
Definition used_world : World :=
  {| stdout := ["earlier output"];
     files := [("mixed-form.pdf",
                {| filename := "mixed-form.pdf"; pagesize := letter; ops := [] |})];
     dirs := ["docs"];
     calls := [Makedirs "docs"] |}.

(** Only the footer of the mixed form reads the clock: the documents of
    the other three operations do not depend on it at all. *)
Lemma document_ignores_clock name g now1 now2 p :
  In (name, g) generators ->
  name <> "mixed-form.pdf" ->
  document g now1 p = document g now2 p.
Proof.
  intros Hin Hname. each_generator Hin; try contradiction.
  all: unfold document; f_equal.
Qed.

Lemma fields_ignore_clock name g now1 now2 p :
  In (name, g) generators ->
  fields (document g now1 p) = fields (document g now2 p).
Proof.
  intros Hin. each_generator Hin.
  all: vm_compute; reflexivity.
Qed.

(** The operations of the mixed form do change with the clock. *)
Lemma mixed_form_footer_varies p :
  ops (document create_mixed_form_pdf noon p)
  <> ops (document create_mixed_form_pdf midnight p).
Proof. vm_compute. discriminate. Qed.

(* ===================================================================== *)
(** ** What any run, completed or not, can touch *)
(* ===================================================================== *)

(** The file a library call is about.  [Makedirs] is about none. *)
Definition call_path (ev : Call) : option string :=
  match ev with
  | Makedirs _ => None
  | NewCanvas p | Draw p _ | Save p => Some p
  end.

Definition about (ps : list string) (ev : Call) : Prop :=
  exists p, call_path ev = Some p /\ In p ps.

(** From [w] to [w'] the only library calls attempted are about the paths
    [ps], and every other path still holds the document it held. *)
Definition Confined (ps : list string) (w w' : World) : Prop :=
  (exists evs, calls w' = evs ++ calls w /\ Forall (about ps) evs)
  /\ (forall q, ~ In q ps -> read_file q w' = read_file q w).

(** Every run of [m], whatever its outcome, is confined to [ps], and a
    value it returns satisfies [Q]. *)
Definition Keeps {A} (ps : list string) (Q : A -> Prop) (m : M A) : Prop :=
  forall env w r w',
    run m env w = (r, w') ->
    Confined ps w w' /\ (forall a, r = Ok a -> Q a).

Lemma confined_refl ps w : Confined ps w w.
Proof. split; [exists []; split; [reflexivity | constructor] | reflexivity]. Qed.

Lemma confined_trans ps w1 w2 w3 :
  Confined ps w1 w2 -> Confined ps w2 w3 -> Confined ps w1 w3.
Proof.
  intros [[e1 [H1 F1]] R1] [[e2 [H2 F2]] R2]. split.
  - exists (e2 ++ e1). split.
    + rewrite H2, H1. apply app_assoc.
    + apply Forall_app. split; assumption.
  - intros q Hq. rewrite R2, R1 by assumption. reflexivity.
Qed.

Lemma confined_mono ps ps' w w' :
  incl ps ps' -> Confined ps w w' -> Confined ps' w w'.
Proof.
  intros Hincl [[evs [H F]] R]. split.
  - exists evs. split; [assumption |].
    eapply Forall_impl; [| exact F].
    intros ev [p [Hp Hin]]. exists p. auto.
  - intros q Hq. apply R. intros Hin. apply Hq, Hincl, Hin.
Qed.

Lemma confined_log ps p ev w :
  call_path ev = Some p -> In p ps -> Confined ps w (log ev w).
Proof.
  intros Hev Hin. split.
  - exists [ev]. split; [reflexivity |].
    constructor; [exists p; auto | constructor].
  - reflexivity.
Qed.

Lemma confined_write_file ps p c w :
  In p ps -> Confined ps w (write_file p c w).
Proof.
  intros Hin. split.
  - exists []. split; [reflexivity | constructor].
  - intros q Hq. unfold read_file. cbn.
    destruct (String.eqb_spec p q) as [-> | _]; [contradiction | reflexivity].
Qed.

Section KeepsRules.

Context {A B : Type}.
Variable ps : list string.

Lemma keeps_ret (Q : A -> Prop) (a : A) : Q a -> Keeps ps Q (ret a).
Proof.
  intros HQ env w r w' H. unfold run in H. cbn in H.
  injection H as <- <-. split; [apply confined_refl |].
  intros a' E. injection E as <-. exact HQ.
Qed.

Lemma keeps_bind (Q : A -> Prop) (R : B -> Prop) (m : M A) (k : A -> M B) :
  Keeps ps Q m -> (forall a, Q a -> Keeps ps R (k a)) ->
  Keeps ps R (bind m k).
Proof.
  intros Hm Hk env w r w'. unfold run. cbn.
  destruct (m env w) as [[a | e] w1] eqn:E; intros H.
  - destruct (Hm _ _ _ _ E) as [C1 HQ].
    destruct (Hk a (HQ a eq_refl) _ _ _ _ H) as [C2 HR].
    split; [eapply confined_trans; eassumption | exact HR].
  - injection H as <- <-.
    destruct (Hm _ _ _ _ E) as [C1 _].
    split; [exact C1 | discriminate].
Qed.

Lemma keeps_weaken (Q Q' : A -> Prop) (m : M A) :
  (forall a, Q a -> Q' a) -> Keeps ps Q m -> Keeps ps Q' m.
Proof.
  intros HQ Hm env w r w' H. destruct (Hm _ _ _ _ H) as [C Hr].
  split; [exact C | auto].
Qed.

Lemma keeps_lib_call (Q : A -> Prop) p ev (a : A) (effect : World -> World) :
  call_path ev = Some p -> In p ps ->
  (forall w, Confined ps w (effect w)) ->
  Q a ->
  Keeps ps Q (lib_call ev a effect).
Proof.
  intros Hev Hin Heff HQ env w r w'. unfold run, lib_call.
  destruct (fault env (length (calls w))); intros H; injection H as <- <-.
  - split; [eapply confined_log; eassumption | discriminate].
  - split.
    + eapply confined_trans; [eapply confined_log; eassumption | apply Heff].
    + intros a' E. injection E as <-. exact HQ.
Qed.

End KeepsRules.

Lemma keeps_print ps (s : string) : Keeps ps (fun _ => True) (print s).
Proof.
  intros env w r w' H. unfold run, print in H. injection H as <- <-.
  split; [| auto]. split; [exists []; split; [reflexivity | constructor] | reflexivity].
Qed.

Lemma keeps_datetime_now ps : Keeps ps (fun _ => True) datetime_now.
Proof.
  intros env w r w' H. unfold run, datetime_now in H. injection H as <- <-.
  split; [apply confined_refl | auto].
Qed.

Lemma keeps_canvas_Canvas ps p size :
  In p ps -> Keeps ps (fun c => filename c = p) (canvas_Canvas p size).
Proof.
  intros Hin. unfold canvas_Canvas.
  eapply keeps_lib_call; [reflexivity | exact Hin | | reflexivity].
  intros w. apply confined_refl.
Qed.

Lemma keeps_issue ps p c o :
  filename c = p -> In p ps ->
  Keeps ps (fun c' => filename c' = p) (issue c o).
Proof.
  intros Hc Hin. unfold issue.
  eapply keeps_lib_call; [cbn; rewrite Hc; reflexivity | exact Hin | | exact Hc].
  intros w. apply confined_refl.
Qed.

Lemma keeps_save ps p c :
  filename c = p -> In p ps -> Keeps ps (fun _ => True) (save c).
Proof.
  intros Hc Hin. unfold save. rewrite Hc.
  eapply keeps_lib_call; [reflexivity | exact Hin | | exact I].
  intros w. apply confined_write_file, Hin.
Qed.

Lemma keeps_for_in {A} ps p (items : list A) (body : Canvas -> A -> M Canvas) :
  (forall c a, filename c = p ->
               Keeps ps (fun c' => filename c' = p) (body c a)) ->
  forall c, filename c = p ->
            Keeps ps (fun c' => filename c' = p) (for_in items body c).
Proof.
  intros Hbody. induction items as [| a rest IH]; intros c Hc; cbn [for_in].
  - apply keeps_ret, Hc.
  - eapply keeps_bind; [apply Hbody, Hc | exact IH].
Qed.

Ltac keeps_step :=
  lazymatch goal with
  | |- Keeps _ _ (bind _ _) =>
      eapply keeps_bind; [keeps_step | intros ? ?; cbv beta in *; keeps_step]
  | |- Keeps _ _ (canvas_Canvas _ _) =>
      apply keeps_canvas_Canvas; left; reflexivity
  | |- Keeps _ _ (issue _ _) =>
      eapply keeps_issue; [eassumption | left; reflexivity]
  | |- Keeps _ _ (save _) =>
      eapply keeps_save; [eassumption | left; reflexivity]
  | |- Keeps _ _ (print _) => apply keeps_print
  | |- Keeps _ _ datetime_now => apply keeps_datetime_now
  | |- Keeps _ _ (for_in _ _ _) =>
      eapply keeps_for_in;
      [ intros ? ? ?;
        repeat match goal with x : (_ * _)%type |- _ => destruct x end;
        cbv beta iota; keeps_step
      | eassumption ]
  end.

Ltac keeps :=
  unfold setFont, drawString, line, acroForm_textfield, acroForm_checkbox,
    acroForm_radio, acroForm_choice;
  cbv zeta; keeps_step.

Lemma create_basic_form_pdf_keeps p :
  Keeps [p] (fun _ => True) (create_basic_form_pdf p).
Proof. unfold create_basic_form_pdf. keeps. Qed.

Lemma create_text_fields_pdf_keeps p :
  Keeps [p] (fun _ => True) (create_text_fields_pdf p).
Proof. unfold create_text_fields_pdf. keeps. Qed.

Lemma create_choice_fields_pdf_keeps p :
  Keeps [p] (fun _ => True) (create_choice_fields_pdf p).
Proof. unfold create_choice_fields_pdf. keeps. Qed.

Lemma create_mixed_form_pdf_keeps p :
  Keeps [p] (fun _ => True) (create_mixed_form_pdf p).
Proof. unfold create_mixed_form_pdf. keeps. Qed.

Lemma generator_keeps name g p :
  In (name, g) generators -> Keeps [p] (fun _ => True) (g p).
Proof.
  intros Hin. each_generator Hin.
  - apply create_basic_form_pdf_keeps.
  - apply create_text_fields_pdf_keeps.
  - apply create_choice_fields_pdf_keeps.
  - apply create_mixed_form_pdf_keeps.
Qed.

(* ===================================================================== *)
(** ** The guarded block of [main] *)
(* ===================================================================== *)

(** Where [main] writes, given where the script lies. *)
Definition output_dir (env : Env) : string :=
  OsPath.join (OsPath.dirname (OsPath.dirname (script env)))
              ["docs"; "test-forms"].

Definition output_path (env : Env) (name : string) : string :=
  OsPath.join (output_dir env) [name].

(** [g1; g2; ...; k] *)
Definition then_all (gens : list (M unit)) (k : M unit) : M unit :=
  fold_right (fun g rest => g ;; rest) k gens.

(** The four calls of the guarded block, in order. *)
Definition generation_calls (env : Env) : list (M unit) :=
  map (fun ng => snd ng (output_path env (fst ng))) generators.

(** The lines printed after the four calls. *)
Definition summary (dir : string) : M unit :=
  print (newline +++ "All test forms have been generated in: " +++ dir) ;;
  print (newline +++ "Generated PDFs:") ;;
  print "- basic-form.pdf: Simple form with basic field types" ;;
  print "- text-fields.pdf: Various text field configurations" ;;
  print "- choice-fields.pdf: Dropdowns, radio buttons, and checkboxes" ;;
  print "- mixed-form.pdf: Realistic form with mixed field types".

(** The [except] clause. *)
Definition report (e : string) : M unit :=
  print ("Error generating PDFs: " +++ e) ;;
  sys_exit 1.

Lemma main_unfold env w :
  run main env w
  = run (os_makedirs (output_dir env) ;;
         print "Generating test PDF forms..." ;;
         try_except_Exception
           (then_all (generation_calls env) (summary (output_dir env)))
           report) env w.
Proof. reflexivity. Qed.

Lemma os_makedirs_ok dir env w w1 :
  run (os_makedirs dir) env w = (Ok tt, w1) ->
  w1 = make_dir dir (log (Makedirs dir) w).
Proof.
  unfold run, os_makedirs, lib_call.
  destruct (fault env (length (calls w))); [discriminate |].
  intros H. injection H as <-. reflexivity.
Qed.

(** If the calls before the [i]-th complete and the [i]-th raises, the whole
    sequence raises there, in the world the [i]-th call left. *)
Lemma then_all_raises k env e w' :
  forall i gens g w wi,
    nth_error gens i = Some g ->
    run (then_all (firstn i gens) (ret tt)) env w = (Ok tt, wi) ->
    run g env wi = (Raise e, w') ->
    run (then_all gens k) env w = (Raise e, w').
Proof.
  induction i as [| i IH]; intros [| g0 gens] g w wi Hnth Hpre Hg;
    try discriminate.
  - cbn in Hnth. injection Hnth as ->.
    unfold run in Hpre. cbn in Hpre. injection Hpre as ->.
    unfold run in *. cbn. rewrite Hg. reflexivity.
  - cbn in Hnth. unfold run in *. cbn in Hpre |- *.
    destruct (g0 env w) as [[[] | e0] w0]; [| discriminate].
    eapply IH; eassumption.
Qed.

(** A sequence of calls, each confined to its own path, is confined to
    their paths together. *)
Lemma then_all_keeps (jobs : list (string * M unit)) :
  Forall (fun job => Keeps [fst job] (fun _ => True) (snd job)) jobs ->
  Keeps (map fst jobs) (fun _ => True) (then_all (map snd jobs) (ret tt)).
Proof.
  induction 1 as [| [p g] jobs Hg _ IH]; cbn [map then_all fold_right].
  - apply keeps_ret. exact I.
  - eapply keeps_bind.
    + intros env w r w' Hrun. destruct (Hg _ _ _ _ Hrun) as [C HQ].
      split; [| exact HQ].
      eapply confined_mono; [| exact C].
      intros q [<- | []]. left. reflexivity.
    + intros _ _ env w r w' Hrun. destruct (IH _ _ _ _ Hrun) as [C HQ].
      split; [| exact HQ].
      eapply confined_mono; [| exact C].
      intros q Hq. right. exact Hq.
Qed.

(** *** Output paths are distinct *)

Lemma append_inj_r (a b c : string) : a +++ b = a +++ c -> b = c.
Proof.
  induction a as [| ch a IH]; cbn; intros H; [exact H |].
  injection H as H. auto.
Qed.

Definition names : list string := map fst generators.

Lemma output_path_inj env n n' :
  In n names -> In n' names ->
  output_path env n = output_path env n' -> n = n'.
Proof.
  unfold output_path, OsPath.join. cbn [fold_left].
  generalize (output_dir env). intros dir Hn Hn'.
  assert (Hs : forall m, In m names -> OsPath.startswith_sep m = false).
  { intros m Hm. vm_compute in Hm.
    destruct Hm as [<- | [<- | [<- | [<- | []]]]]; reflexivity. }
  unfold OsPath.join2. rewrite (Hs n Hn), (Hs n' Hn').
  destruct (String.eqb dir "" || OsPath.endswith_sep dir); intros H.
  - eapply append_inj_r; eassumption.
  - apply append_inj_r in H. apply (append_inj_r "/") in H. exact H.
Qed.

Lemma names_nodup : NoDup names.
Proof.
  vm_compute. repeat constructor; cbn; intuition discriminate.
Qed.

Lemma nodup_split {A} (l : list A) (k : nat) (x : A) :
  NoDup l -> In x (firstn k l) -> In x (skipn k l) -> False.
Proof.
  intros Hnd. rewrite <- (firstn_skipn k l) in Hnd.
  revert Hnd. generalize (firstn k l) (skipn k l). intros l1 l2.
  induction l1 as [| a l1 IH]; cbn; intros Hnd H1 H2; [contradiction |].
  inversion Hnd as [| ? ? Hnotin Hnd']; subst.
  destruct H1 as [-> | H1].
  - apply Hnotin, in_or_app. right. exact H2.
  - exact (IH Hnd' H1 H2).
Qed.

Lemma in_firstn_succ {A} (x : A) : forall k l,
  In x (firstn k l) -> In x (firstn (S k) l).
Proof.
  induction k as [| k IH]; intros [| a l]; cbn [firstn In]; try contradiction.
  intros [-> | H]; [left; reflexivity | right; apply IH, H].
Qed.

Lemma nth_error_in_firstn {A} (x : A) : forall k l,
  nth_error l k = Some x -> In x (firstn (S k) l).
Proof.
  induction k as [| k IH]; intros [| a l]; cbn [nth_error]; try discriminate.
  - intros H. injection H as ->. left. reflexivity.
  - intros H. rewrite firstn_cons. right. apply IH, H.
Qed.

Lemma in_firstn {A} (x : A) : forall k l, In x (firstn k l) -> In x l.
Proof.
  induction k as [| k IH]; intros [| a l]; cbn [firstn In]; try contradiction.
  intros [-> | H]; [left; reflexivity | right; apply IH, H].
Qed.

Lemma in_skipn {A} (x : A) : forall k l, In x (skipn k l) -> In x l.
Proof.
  induction k as [| k IH]; intros [| a l]; cbn [skipn]; auto.
  intros H. right. apply IH, H.
Qed.

(** Each call of the guarded block with the path it is given. *)
Definition jobs (env : Env) : list (string * M unit) :=
  map (fun ng => (output_path env (fst ng), snd ng (output_path env (fst ng))))
      generators.

Lemma jobs_calls env : map snd (jobs env) = generation_calls env.
Proof. reflexivity. Qed.

Lemma jobs_paths env : map fst (jobs env) = map (output_path env) names.
Proof. reflexivity. Qed.

Lemma jobs_keep env :
  Forall (fun job => Keeps [fst job] (fun _ => True) (snd job)) (jobs env).
Proof.
  unfold jobs. apply Forall_forall. intros job Hjob.
  apply in_map_iff in Hjob as [[name g] [<- Hin]]. cbn [fst snd].
  eapply generator_keeps. exact Hin.
Qed.

(** The calls before the [i]-th, run together, are confined to the first
    [i] output paths. *)
Lemma prefix_confined env i w r w' :
  run (then_all (firstn i (generation_calls env)) (ret tt)) env w = (r, w') ->
  Confined (map (output_path env) (firstn i names)) w w'.
Proof.
  intros Hrun.
  rewrite <- jobs_calls, firstn_map in Hrun.
  assert (Hk : Forall (fun job => Keeps [fst job] (fun _ => True) (snd job))
                      (firstn i (jobs env))).
  { apply Forall_forall. intros job Hjob.
    eapply (proj1 (Forall_forall _ _) (jobs_keep env)), in_firstn, Hjob. }
  destruct (then_all_keeps _ Hk _ _ _ _ Hrun) as [C _].
  rewrite <- firstn_map, <- jobs_paths. rewrite firstn_map. exact C.
Qed.

(** C7.  Suppose the output directory was created, the first [i] of the
    four documents were generated, and generation of the next one raises an
    exception with message [msg].  Then [main] prints
    "Error generating PDFs: msg" as its last line and ends by [sys.exit(1)],
    so the process exits with status 1; and nothing more happens after the
    exception: no canvas is opened for any of the remaining documents and
    the files at their paths are left as they were. *)
Theorem main_aborts_on_exception env w0 w1 i name g wi msg w' :
  run (os_makedirs (output_dir env)) env w0 = (Ok tt, w1) ->
  nth_error generators i = Some (name, g) ->
  run (then_all (firstn i (generation_calls env)) (ret tt)) env
      (println "Generating test PDF forms..." w1) = (Ok tt, wi) ->
  run (g (output_path env name)) env wi = (Raise (Exception msg), w') ->
  run main env w0
  = (Raise (SystemExit 1), println ("Error generating PDFs: " +++ msg) w')
  /\ exit_status (fst (run main env w0)) = 1
  /\ (exists evs,
        calls (snd (run main env w0)) = evs ++ calls w0
        /\ forall name' g',
             In (name', g') (skipn (S i) generators) ->
             ~ In (NewCanvas (output_path env name')) evs
             /\ read_file (output_path env name') (snd (run main env w0))
                = read_file (output_path env name') w0).
Proof.
  intros Hmk Hnth Hpre Hg.
  assert (Hmain : run main env w0
                  = (Raise (SystemExit 1),
                     println ("Error generating PDFs: " +++ msg) w')).
  { rewrite main_unfold. unfold run in *. cbn [bind Monad_M].
    rewrite Hmk. unfold print at 1. unfold try_except_Exception.
    assert (Hcall : nth_error (generation_calls env) i
                    = Some (g (output_path env name))).
    { unfold generation_calls. rewrite nth_error_map, Hnth. reflexivity. }
    pose proof (then_all_raises (summary (output_dir env)) env _ w' i _ _ _ _
                  Hcall Hpre Hg) as Hbody.
    unfold run in Hbody. rewrite Hbody. reflexivity. }
  split; [exact Hmain |]. rewrite Hmain. cbn [fst snd exit_status].
  split; [reflexivity |].
  (* what the run touched *)
  apply os_makedirs_ok in Hmk. subst w1.
  pose proof (prefix_confined _ _ _ _ _ Hpre) as Cpre.
  assert (Hin : In (name, g) generators) by (eapply nth_error_In; exact Hnth).
  destruct (generator_keeps _ _ (output_path env name) Hin _ _ _ _ Hg) as [Cg _].
  set (ps := map (output_path env) (firstn (S i) names)).
  assert (C : Confined ps
                (println "Generating test PDF forms..."
                   (make_dir (output_dir env)
                      (log (Makedirs (output_dir env)) w0))) w').
  { eapply confined_trans.
    - eapply confined_mono; [| exact Cpre].
      intros q Hq. apply in_map_iff in Hq as [n [<- Hn]].
      apply in_map, in_firstn_succ, Hn.
    - eapply confined_mono; [| exact Cg].
      intros q [<- | []]. apply in_map.
      apply nth_error_in_firstn. unfold names.
      rewrite nth_error_map, Hnth. reflexivity. }
  destruct C as [[evs [Hcalls Hevs]] Hfiles].
  exists (evs ++ [Makedirs (output_dir env)]). split.
  - cbn [calls println]. rewrite Hcalls. cbn [calls println make_dir log].
    rewrite <- app_assoc. reflexivity.
  - intros name' g' Hlater.
    assert (Hout : ~ In (output_path env name') ps).
    { intros Hq. apply in_map_iff in Hq as [n [Heq Hn]].
      assert (Hn' : In name' (skipn (S i) names)).
      { unfold names. rewrite skipn_map.
        change name' with (fst (name', g')). apply in_map, Hlater. }
      apply output_path_inj in Heq;
        [| eapply in_firstn; exact Hn | eapply in_skipn; exact Hn'].
      subst n. exact (nodup_split _ _ _ names_nodup Hn Hn'). }
    split.
    + intros Hev. apply in_app_or in Hev as [Hev | [Hev | []]];
        [| discriminate Hev].
      apply (proj1 (Forall_forall _ _) Hevs) in Hev as [q [Hq Hqin]].
      cbn in Hq. injection Hq as <-. exact (Hout Hqin).
    + unfold read_file at 1. cbn [files println].
      exact (Hfiles _ Hout).
Qed.

(** A run in which the seventh library call made for text-fields.pdf fails:
    the directory and basic-form.pdf are done, text-fields.pdf breaks off. *)
Definition disk_full : Env := failing_at 30 "disk full".

Lemma main_aborts_on_exception_witness :
  run main disk_full world0
  = (Raise (SystemExit 1),
     println "Error generating PDFs: disk full"
       (snd (run (create_text_fields_pdf (output_path disk_full "text-fields.pdf"))
                 disk_full
                 (snd (run (create_basic_form_pdf
                              (output_path disk_full "basic-form.pdf"))
                           disk_full
                           (println "Generating test PDF forms..."
                              (snd (run (os_makedirs (output_dir disk_full))
                                        disk_full world0))))))))
  /\ exit_status (fst (run main disk_full world0)) = 1.
Proof.
  destruct (main_aborts_on_exception disk_full world0
              (snd (run (os_makedirs (output_dir disk_full)) disk_full world0))
              1 "text-fields.pdf" create_text_fields_pdf
              (snd (run (create_basic_form_pdf
                           (output_path disk_full "basic-form.pdf"))
                        disk_full
                        (println "Generating test PDF forms..."
                           (snd (run (os_makedirs (output_dir disk_full))
                                     disk_full world0)))))
              "disk full"
              (snd (run (create_text_fields_pdf
                           (output_path disk_full "text-fields.pdf"))
                        disk_full
                        (snd (run (create_basic_form_pdf
                                     (output_path disk_full "basic-form.pdf"))
                                  disk_full
                                  (println "Generating test PDF forms..."
                                     (snd (run (os_makedirs (output_dir disk_full))
                                               disk_full world0))))))))
    as (Hrun & Hexit & _).
  - vm_compute. reflexivity.
  - reflexivity.
  - vm_compute. reflexivity.
  - vm_compute. reflexivity.
  - split; [exact Hrun | exact Hexit].
Defined.

(** The same run, read off directly: what was printed, which documents
    exist afterwards, and the exit status. *)
Example disk_full_run :
  let r := run main disk_full world0 in
  exit_status (fst r) = 1
  /\ stdout (snd r)
     = [ "Error generating PDFs: disk full";
         "Created: /repo/docs/test-forms/basic-form.pdf";
         "Generating test PDF forms..." ]
  /\ map fst (files (snd r)) = ["/repo/docs/test-forms/basic-form.pdf"].
Proof. vm_compute. repeat split. Qed.

(** When nothing fails, all four documents are written and the status is 0. *)
Example calm_run :
  let r := run main calm world0 in
  exit_status (fst r) = 0
  /\ map fst (files (snd r))
     = [ "/repo/docs/test-forms/mixed-form.pdf";
         "/repo/docs/test-forms/choice-fields.pdf";
         "/repo/docs/test-forms/text-fields.pdf";
         "/repo/docs/test-forms/basic-form.pdf" ].
Proof. vm_compute. repeat split. Qed.


(* ===================================================================== *)
(** ** What a failing generator leaves behind *)
(* ===================================================================== *)

(** The exception [e] is the one the library raised at the call attempted
    last in [w']: an [Exception] carrying the message the fault table holds
    for that call. *)
Definition raised_by (env : Env) (w' : World) (e : Exn) : Prop :=
  exists msg ev rest,
    e = Exception msg
    /\ calls w' = ev :: rest
    /\ fault env (length rest) = Some msg.

Definition same_output (w w' : World) : Prop :=
  files w' = files w /\ stdout w' = stdout w /\ dirs w' = dirs w.

(** Whatever its outcome, [m] saves nothing, prints nothing and creates no
    directory; and if it raises, the library raised. *)
Definition Silent {A} (m : M A) : Prop :=
  forall env w r w',
    run m env w = (r, w') ->
    same_output w w' /\ (forall e, r = Raise e -> raised_by env w' e).

(** If [m] raises, the library raised, and nothing was saved, printed or
    created before that. *)
Definition FailsClean {A} (m : M A) : Prop :=
  forall env w e w',
    run m env w = (Raise e, w') ->
    raised_by env w' e /\ same_output w w'.

Lemma same_output_refl w : same_output w w.
Proof. repeat split. Qed.

Lemma same_output_trans w1 w2 w3 :
  same_output w1 w2 -> same_output w2 w3 -> same_output w1 w3.
Proof.
  intros (F1 & S1 & D1) (F2 & S2 & D2).
  repeat split; congruence.
Qed.

Lemma silent_ret {A} (a : A) : Silent (ret a).
Proof.
  intros env w r w' H. unfold run in H. cbn in H. injection H as <- <-.
  split; [apply same_output_refl | discriminate].
Qed.

Lemma silent_bind {A B} (m : M A) (k : A -> M B) :
  Silent m -> (forall a, Silent (k a)) -> Silent (bind m k).
Proof.
  intros Hm Hk env w r w'. unfold run. cbn.
  destruct (m env w) as [[a | e] w1] eqn:E; intros H.
  - destruct (Hm _ _ _ _ E) as [O1 _].
    destruct (Hk a _ _ _ _ H) as [O2 R2].
    split; [eapply same_output_trans; eassumption | exact R2].
  - injection H as <- <-. destruct (Hm _ _ _ _ E) as [O1 R1].
    split; [exact O1 |]. intros e' E'. injection E' as <-. auto.
Qed.

(** A library call whose effect is only to return a value. *)
Lemma silent_lib_call {A} (ev : Call) (a : A) :
  Silent (lib_call ev a (fun w => w)).
Proof.
  intros env w r w'. unfold run, lib_call.
  destruct (fault env (length (calls w))) as [msg |] eqn:F;
    intros H; injection H as <- <-.
  - split; [repeat split |].
    intros e E. injection E as <-. exists msg, ev, (calls w). auto.
  - split; [repeat split | discriminate].
Qed.

Lemma silent_datetime_now : Silent datetime_now.
Proof.
  intros env w r w' H. unfold run, datetime_now in H. injection H as <- <-.
  split; [apply same_output_refl | discriminate].
Qed.

Lemma silent_for_in {A S} (items : list A) (body : S -> A -> M S) :
  (forall s item, Silent (body s item)) ->
  forall s, Silent (for_in items body s).
Proof.
  intros Hbody. induction items as [| item rest IH]; intros s; cbn [for_in].
  - apply silent_ret.
  - apply silent_bind; [apply Hbody | apply IH].
Qed.

Lemma failsclean_bind {A B} (m : M A) (k : A -> M B) :
  Silent m -> (forall a, FailsClean (k a)) -> FailsClean (bind m k).
Proof.
  intros Hm Hk env w e w'. unfold run. cbn.
  destruct (m env w) as [[a | e0] w1] eqn:E; intros H.
  - destruct (Hm _ _ _ _ E) as [O1 _].
    destruct (Hk a _ _ _ _ H) as [R2 O2].
    split; [exact R2 | eapply same_output_trans; eassumption].
  - injection H as <- <-. destruct (Hm _ _ _ _ E) as [O1 R1]. auto.
Qed.

(** The last two statements of every generator: [c.save()] then [print]. *)
Lemma failsclean_save_print c s : FailsClean (save c ;; print s).
Proof.
  intros env w e w'. unfold run, save, lib_call, print. cbn.
  destruct (fault env (length (calls w))) as [msg |] eqn:F;
    intros H; [| discriminate].
  injection H as <- <-.
  split; [| repeat split].
  exists msg, (Save (filename c)), (calls w). auto.
Qed.

Ltac silent_step :=
  lazymatch goal with
  | |- Silent (bind _ _) =>
      apply silent_bind; [silent_step | intros ?; silent_step]
  | |- Silent (canvas_Canvas _ _) => apply silent_lib_call
  | |- Silent (issue _ _) => apply silent_lib_call
  | |- Silent datetime_now => apply silent_datetime_now
  | |- Silent (for_in _ _ _) =>
      apply silent_for_in; intros ? ?;
      repeat match goal with x : (_ * _)%type |- _ => destruct x end;
      cbv beta iota; silent_step
  end.

Ltac fails_clean :=
  unfold setFont, drawString, line, acroForm_textfield, acroForm_checkbox,
    acroForm_radio, acroForm_choice;
  cbv zeta;
  repeat first
    [ apply failsclean_save_print
    | apply failsclean_bind; [silent_step | intros ?] ].

Lemma create_basic_form_pdf_fails_clean p : FailsClean (create_basic_form_pdf p).
Proof. unfold create_basic_form_pdf. fails_clean. Qed.

Lemma create_text_fields_pdf_fails_clean p : FailsClean (create_text_fields_pdf p).
Proof. unfold create_text_fields_pdf. fails_clean. Qed.

Lemma create_choice_fields_pdf_fails_clean p :
  FailsClean (create_choice_fields_pdf p).
Proof. unfold create_choice_fields_pdf. fails_clean. Qed.

Lemma create_mixed_form_pdf_fails_clean p : FailsClean (create_mixed_form_pdf p).
Proof. unfold create_mixed_form_pdf. fails_clean. Qed.

Lemma generator_fails_clean name g p :
  In (name, g) generators -> FailsClean (g p).
Proof.
  intros Hin. each_generator Hin.
  - apply create_basic_form_pdf_fails_clean.
  - apply create_text_fields_pdf_fails_clean.
  - apply create_choice_fields_pdf_fails_clean.
  - apply create_mixed_form_pdf_fails_clean.
Qed.

Lemma generator_returns name g env w p w' :
  In (name, g) generators ->
  run (g p) env w = (Ok tt, w') ->
  files w' = (p, document g (clock env) p) :: files w
  /\ stdout w' = ("Created: " +++ p) :: stdout w
  /\ dirs w' = dirs w.
Proof.
  intros Hin Hrun. each_generator Hin.
  - apply create_basic_form_pdf_steady in Hrun. run_quietly Hrun.
  - apply create_text_fields_pdf_steady in Hrun. run_quietly Hrun.
  - apply create_choice_fields_pdf_steady in Hrun. run_quietly Hrun.
  - apply create_mixed_form_pdf_steady in Hrun. run_quietly Hrun.
Qed.

(** X2.  A generator that returns has saved exactly one document, under the
    path it was given and on a letter-size page, has printed exactly one
    line, "Created: " followed by that path, and has created no directory. *)
Theorem generator_success_effects name g env w p w' :
  In (name, g) generators ->
  run (g p) env w = (Ok tt, w') ->
  exists doc,
    files w' = (p, doc) :: files w
    /\ filename doc = p
    /\ pagesize doc = (612, 792)
    /\ stdout w' = ("Created: " +++ p) :: stdout w
    /\ dirs w' = dirs w.
Proof.
  intros Hin Hrun.
  destruct (generator_returns _ _ _ _ _ _ Hin Hrun) as (Hf & Hs & Hd).
  exists (document g (clock env) p).
  split; [exact Hf |]. split; [reflexivity |]. split; [reflexivity |].
  split; [exact Hs | exact Hd].
Qed.

Lemma generator_success_effects_witness :
  exists doc,
    files (snd (run (create_text_fields_pdf "t.pdf") calm used_world))
    = ("t.pdf", doc) :: files used_world
    /\ filename doc = "t.pdf"
    /\ pagesize doc = (612, 792)
    /\ stdout (snd (run (create_text_fields_pdf "t.pdf") calm used_world))
       = "Created: t.pdf" :: stdout used_world
    /\ dirs (snd (run (create_text_fields_pdf "t.pdf") calm used_world))
       = dirs used_world.
Proof.
  apply (generator_success_effects "text-fields.pdf" create_text_fields_pdf
           calm used_world "t.pdf").
  - unfold generators. cbn [In]. right. left. reflexivity.
  - vm_compute. reflexivity.
Defined.

(** X3.  Whether it returns or raises, a generator only makes library calls
    about its own output path, and the document stored under any other path
    is the one that was there before. *)
Theorem generator_confined name g env w p r w' :
  In (name, g) generators ->
  run (g p) env w = (r, w') ->
  (exists evs,
     calls w' = evs ++ calls w
     /\ Forall (fun ev => call_path ev = Some p) evs)
  /\ (forall q, q <> p -> read_file q w' = read_file q w).
Proof.
  intros Hin Hrun.
  destruct (generator_keeps _ _ p Hin _ _ _ _ Hrun) as [[[evs [Hc Hf]] Hr] _].
  split.
  - exists evs. split; [exact Hc |].
    eapply Forall_impl; [| exact Hf].
    intros ev [q [Hq [<- | []]]]. exact Hq.
  - intros q Hq. apply Hr. intros [<- | []]. apply Hq. reflexivity.
Qed.

Lemma generator_confined_witness :
  read_file "mixed-form.pdf"
    (snd (run (create_basic_form_pdf "basic-form.pdf") disk_full used_world))
  = read_file "mixed-form.pdf" used_world.
Proof.
  apply (generator_confined "basic-form.pdf" create_basic_form_pdf
           disk_full used_world "basic-form.pdf"
           (fst (run (create_basic_form_pdf "basic-form.pdf") disk_full used_world))).
  - unfold generators. cbn [In]. left. reflexivity.
  - vm_compute. reflexivity.
  - discriminate.
Defined.

Lemma generator_saves name g env w p w' :
  In (name, g) generators ->
  run (g p) env w = (Ok tt, w') ->
  files w' = (p, document g (clock env) p) :: files w.
Proof.
  intros Hin Hrun. each_generator Hin.
  - apply (create_basic_form_pdf_saves _ _ _ _ Hrun).
  - apply (create_text_fields_pdf_saves _ _ _ _ Hrun).
  - apply (create_choice_fields_pdf_saves _ _ _ _ Hrun).
  - apply (create_mixed_form_pdf_saves _ _ _ _ Hrun).
Qed.

(** X4.  The order in which two documents are generated does not matter to
    what can be read afterwards: if two generators with different output
    paths both complete, run one way round and the other, then every path
    holds the same document in both final worlds. *)
Theorem generation_order_irrelevant
  name1 g1 name2 g2 env w p1 p2 wa wb :
  In (name1, g1) generators ->
  In (name2, g2) generators ->
  p1 <> p2 ->
  run (g1 p1 ;; g2 p2) env w = (Ok tt, wa) ->
  run (g2 p2 ;; g1 p1) env w = (Ok tt, wb) ->
  forall q, read_file q wa = read_file q wb.
Proof.
  intros H1 H2 Hne Ha Hb q.
  unfold run in Ha, Hb. cbn [bind Monad_M] in Ha, Hb.
  destruct (g1 p1 env w) as [[[] | e1] w1] eqn:E1; [| discriminate].
  destruct (g2 p2 env w) as [[[] | e2] w2] eqn:E2; [| discriminate].
  apply (generator_saves _ _ _ _ _ _ H1) in E1.
  apply (generator_saves _ _ _ _ _ _ H2) in E2.
  apply (generator_saves _ _ _ _ _ _ H2) in Ha.
  apply (generator_saves _ _ _ _ _ _ H1) in Hb.
  unfold read_file. rewrite Ha, Hb, E1, E2. cbn [lookup_file].
  destruct (String.eqb_spec p2 q) as [-> | N2];
    destruct (String.eqb_spec p1 q) as [-> | N1];
    try reflexivity.
  contradiction Hne. reflexivity.
Qed.

Lemma generation_order_irrelevant_witness :
  read_file "a.pdf"
    (snd (run (create_basic_form_pdf "a.pdf" ;; create_mixed_form_pdf "b.pdf")
              calm world0))
  = read_file "a.pdf"
      (snd (run (create_mixed_form_pdf "b.pdf" ;; create_basic_form_pdf "a.pdf")
                calm world0)).
Proof.
  apply (generation_order_irrelevant
           "basic-form.pdf" create_basic_form_pdf
           "mixed-form.pdf" create_mixed_form_pdf calm world0 "a.pdf" "b.pdf").
  - unfold generators. cbn [In]. left. reflexivity.
  - unfold generators. cbn [In]. right. right. right. left. reflexivity.
  - discriminate.
  - vm_compute. reflexivity.
  - vm_compute. reflexivity.
Defined.

(* ===================================================================== *)
(** ** Every way [main] can end *)
(* ===================================================================== *)

Lemma summary_returns dir env w :
  exists w',
    run (summary dir) env w = (Ok tt, w')
    /\ files w' = files w /\ dirs w' = dirs w /\ calls w' = calls w.
Proof. eexists. split; [reflexivity | repeat split]. Qed.

(** The guarded block raises only what a generator raised. *)
Lemma guarded_block_raises env (gens : list (M unit)) dir :
  Forall FailsClean gens ->
  forall w e w',
    run (then_all gens (summary dir)) env w = (Raise e, w') ->
    raised_by env w' e.
Proof.
  induction 1 as [| g gens Hg _ IH]; intros w e w' Hrun.
  - destruct (summary_returns dir env w) as [w1 [Hs _]].
    cbn [then_all fold_right] in Hrun. rewrite Hs in Hrun. discriminate.
  - unfold run in *. cbn [then_all fold_right bind Monad_M] in Hrun.
    destruct (g env w) as [[[] | e0] w1] eqn:E.
    + eapply IH. exact Hrun.
    + injection Hrun as <- <-. apply (Hg _ _ _ _ E).
Qed.

Lemma generation_calls_fail_clean env : Forall FailsClean (generation_calls env).
Proof.
  unfold generation_calls. apply Forall_forall. intros m Hm.
  apply in_map_iff in Hm as [[name g] [<- Hin]]. cbn [fst snd].
  eapply generator_fails_clean. exact Hin.
Qed.

(** When the guarded block completes, the four documents were saved one
    after the other and nothing else was. *)
Lemma guarded_block_returns env w w' :
  run (then_all (generation_calls env) (summary (output_dir env))) env w
  = (Ok tt, w') ->
  files w'
  = map (fun ng => (output_path env (fst ng),
                    document (snd ng) (clock env) (output_path env (fst ng))))
        (rev generators) ++ files w.
Proof.
  unfold generation_calls, generators.
  cbn [map rev app then_all fold_right fst snd].
  unfold run. cbn [bind Monad_M]. intros H.
  destruct (create_basic_form_pdf _ env w) as [[[] | e1] w1] eqn:E1;
    [| discriminate].
  destruct (create_text_fields_pdf _ env w1) as [[[] | e2] w2] eqn:E2;
    [| discriminate].
  destruct (create_choice_fields_pdf _ env w2) as [[[] | e3] w3] eqn:E3;
    [| discriminate].
  destruct (create_mixed_form_pdf _ env w3) as [[[] | e4] w4] eqn:E4;
    [| discriminate].
  destruct (summary_returns (output_dir env) env w4) as [w5 [Hs [Hf _]]].
  unfold run in Hs. rewrite Hs in H. injection H as <-.
  apply create_basic_form_pdf_saves in E1 as [F1 _].
  apply create_text_fields_pdf_saves in E2 as [F2 _].
  apply create_choice_fields_pdf_saves in E3 as [F3 _].
  apply create_mixed_form_pdf_saves in E4 as [F4 _].
  rewrite Hf, F4, F3, F2, F1. reflexivity.
Qed.

Lemma output_path_eqb env n n' :
  In n names -> In n' names ->
  String.eqb (output_path env n) (output_path env n') = String.eqb n n'.
Proof.
  intros Hn Hn'.
  destruct (String.eqb_spec n n') as [-> | Hne].
  - apply String.eqb_refl.
  - apply String.eqb_neq. intros Heq. apply Hne.
    eapply output_path_inj; eassumption.
Qed.

(** X5.  If creating the output directory fails, [main] does not handle it:
    the exception leaves [main] as it is, the process ends with status 1,
    and nothing has been printed, saved or created; the only library call
    attempted is [os.makedirs]. *)
Theorem main_makedirs_failure env w msg :
  fault env (length (calls w)) = Some msg ->
  run main env w
  = (Raise (Exception msg), log (Makedirs (output_dir env)) w)
  /\ exit_status (fst (run main env w)) = 1
  /\ stdout (snd (run main env w)) = stdout w
  /\ files (snd (run main env w)) = files w
  /\ dirs (snd (run main env w)) = dirs w.
Proof.
  intros Hfault.
  assert (Hmain : run main env w
                  = (Raise (Exception msg), log (Makedirs (output_dir env)) w)).
  { rewrite main_unfold. unfold run. cbn [bind Monad_M].
    unfold os_makedirs, lib_call. rewrite Hfault. reflexivity. }
  rewrite Hmain. repeat split.
Qed.

Lemma main_makedirs_failure_witness :
  run main (failing_at 0 "permission denied") world0
  = (Raise (Exception "permission denied"),
     log (Makedirs (output_dir (failing_at 0 "permission denied"))) world0).
Proof.
  apply (main_makedirs_failure (failing_at 0 "permission denied") world0
           "permission denied").
  reflexivity.
Defined.

Lemma main_cases env w :
  fault env (length (calls w)) = None ->
  (exists w',
     run main env w = (Ok tt, w')
     /\ dirs w' = output_dir env :: dirs w
     /\ forall name g,
          In (name, g) generators ->
          read_file (output_path env name) w'
          = Some (document g (clock env) (output_path env name)))
  \/ (exists msg w',
        run main env w
        = (Raise (SystemExit 1), println ("Error generating PDFs: " +++ msg) w')
        /\ raised_by env w' (Exception msg)).
Proof.
  intros Hfault.
  set (w1 := println "Generating test PDF forms..."
               (make_dir (output_dir env) (log (Makedirs (output_dir env)) w))).
  assert (Hmain : run main env w
                  = try_except_Exception
                      (then_all (generation_calls env) (summary (output_dir env)))
                      report env w1).
  { rewrite main_unfold. unfold run. cbn [bind Monad_M].
    unfold os_makedirs, lib_call. rewrite Hfault. reflexivity. }
  rewrite Hmain. clear Hmain. unfold try_except_Exception.
  destruct (then_all (generation_calls env) (summary (output_dir env)) env w1)
    as [[[] | e] w2] eqn:E.
  - left. exists w2. split; [reflexivity |].
    pose proof (guarded_block_returns env w1 w2 E) as Hfiles.
    split.
    + (* directories: only [os.makedirs] creates one *)
      revert E. unfold generation_calls, generators.
      cbn [map then_all fold_right fst snd bind Monad_M]. intros E.
      destruct (create_basic_form_pdf _ env w1) as [[[] | e1] wa] eqn:E1;
        [| discriminate].
      destruct (create_text_fields_pdf _ env wa) as [[[] | e2] wb] eqn:E2;
        [| discriminate].
      destruct (create_choice_fields_pdf _ env wb) as [[[] | e3] wc] eqn:E3;
        [| discriminate].
      destruct (create_mixed_form_pdf _ env wc) as [[[] | e4] wd] eqn:E4;
        [| discriminate].
      destruct (summary_returns (output_dir env) env wd) as [we [Hs [_ [Hd _]]]].
      unfold run in Hs. rewrite Hs in E. injection E as <-.
      apply (generator_returns "basic-form.pdf" create_basic_form_pdf) in E1
        as (_ & _ & D1); [| left; reflexivity].
      apply (generator_returns "text-fields.pdf" create_text_fields_pdf) in E2
        as (_ & _ & D2); [| right; left; reflexivity].
      apply (generator_returns "choice-fields.pdf" create_choice_fields_pdf) in E3
        as (_ & _ & D3); [| right; right; left; reflexivity].
      apply (generator_returns "mixed-form.pdf" create_mixed_form_pdf) in E4
        as (_ & _ & D4); [| right; right; right; left; reflexivity].
      rewrite Hd, D4, D3, D2, D1. reflexivity.
    + intros name g Hin. unfold read_file. rewrite Hfiles.
      unfold generators. cbn [rev app map fst snd lookup_file].
      each_generator Hin;
        rewrite !output_path_eqb by (vm_compute; auto 6); reflexivity.
  - pose proof (guarded_block_raises env _ _ (generation_calls_fail_clean env)
                  w1 e w2 E) as Hr.
    destruct Hr as (msg & ev & rest & -> & Hc & Hf).
    right. exists msg, w2. split; [reflexivity |].
    exists msg, ev, rest. auto.
Qed.

(** X6.  Once the output directory is created, [main] ends in one of two
    ways only.  Either it returns, and then each of the four output paths
    holds the document of its generator; or it ends by [sys.exit(1)] right
    after printing "Error generating PDFs: " followed by the message of the
    library call that failed.  No exception raised during generation ever
    leaves [main]. *)
Theorem main_outcomes env w :
  fault env (length (calls w)) = None ->
  (exists w',
     run main env w = (Ok tt, w')
     /\ dirs w' = output_dir env :: dirs w
     /\ forall name g,
          In (name, g) generators ->
          read_file (output_path env name) w'
          = Some (document g (clock env) (output_path env name)))
  \/ (exists msg w',
        run main env w
        = (Raise (SystemExit 1), println ("Error generating PDFs: " +++ msg) w')
        /\ raised_by env w' (Exception msg)).
Proof.
  intros Hfault. destruct (main_cases env w Hfault) as [Hreturns | Hexits].
  - left. exact Hreturns.
  - right. exact Hexits.
Qed.

Lemma main_outcomes_witness :
  (exists w',
     run main calm world0 = (Ok tt, w')
     /\ dirs w' = output_dir calm :: dirs world0
     /\ forall name g,
          In (name, g) generators ->
          read_file (output_path calm name) w'
          = Some (document g (clock calm) (output_path calm name)))
  \/ (exists msg w',
        run main calm world0
        = (Raise (SystemExit 1), println ("Error generating PDFs: " +++ msg) w')
        /\ raised_by calm w' (Exception msg)).
Proof.
  apply (main_outcomes calm world0). reflexivity.
Defined.

(* ===================================================================== *)
(** ** Where [main] writes *)
(* ===================================================================== *)

Definition is_sep (c : ascii) : bool := Ascii.eqb c OsPath.sep.

(** No character of the list is a separator. *)
Definition sep_free (l : list ascii) : bool := forallb (fun c => negb (is_sep c)) l.

(** A path component: not empty and without separator. *)
Definition component (s : string) : Prop :=
  s <> "" /\ sep_free (list_ascii_of_string s) = true.

(** A directory path as [os.path.dirname] returns it: empty, or ending in
    something else than a separator. *)
Definition stripped (s : string) : Prop := OsPath.endswith_sep s = false.

Lemma list_of_append a b :
  list_ascii_of_string (a +++ b)
  = list_ascii_of_string a ++ list_ascii_of_string b.
Proof. induction a as [| c a IH]; cbn; [reflexivity | rewrite IH; reflexivity]. Qed.

Lemma string_of_app l1 l2 :
  string_of_list_ascii (l1 ++ l2)
  = string_of_list_ascii l1 +++ string_of_list_ascii l2.
Proof. induction l1 as [| c l IH]; cbn; [reflexivity | rewrite IH; reflexivity]. Qed.

Lemma append_assoc (a b c : string) : (a +++ b) +++ c = a +++ b +++ c.
Proof. induction a as [| ch a IH]; cbn; [reflexivity | rewrite IH; reflexivity]. Qed.

Lemma upto_last_sep_free t : sep_free t = true -> OsPath.upto_last_sep t = [].
Proof.
  induction t as [| c t IH]; cbn; [reflexivity |].
  intros H. apply andb_prop in H as [Hc Ht]. rewrite (IH Ht).
  unfold is_sep in Hc. destruct (Ascii.eqb c OsPath.sep); [discriminate | reflexivity].
Qed.

Lemma upto_last_sep_app l t :
  sep_free t = true ->
  OsPath.upto_last_sep (l ++ OsPath.sep :: t) = l ++ [OsPath.sep].
Proof.
  intros Ht. induction l as [| c l IH]; cbn [app OsPath.upto_last_sep].
  - rewrite (upto_last_sep_free t Ht). reflexivity.
  - rewrite IH. destruct l; reflexivity.
Qed.

Lemma rstrip_sep_one l c :
  is_sep c = false ->
  OsPath.rstrip_sep ((l ++ [c]) ++ [OsPath.sep]) = l ++ [c].
Proof.
  intros Hc. unfold OsPath.rstrip_sep.
  rewrite !rev_app_distr. cbn [rev app OsPath.lstrip_sep].
  unfold is_sep in Hc. rewrite Hc, Ascii.eqb_refl.
  cbn [rev]. rewrite rev_involutive. reflexivity.
Qed.

Lemma not_all_sep l c :
  is_sep c = false ->
  forallb (Ascii.eqb OsPath.sep) ((l ++ [c]) ++ [OsPath.sep]) = false.
Proof.
  intros Hc. rewrite !forallb_app. cbn [forallb].
  unfold is_sep in Hc. rewrite Ascii.eqb_sym, Hc.
  rewrite !andb_false_r. reflexivity.
Qed.

(** The last character of a stripped, non-empty path. *)
Lemma stripped_last s :
  s <> "" -> stripped s ->
  exists l c, list_ascii_of_string s = l ++ [c] /\ is_sep c = false.
Proof.
  unfold stripped. induction s as [| c s IH]; [congruence |].
  intros _ H. destruct s as [| c' s'].
  - exists [], c. split; [reflexivity | exact H].
  - destruct IH as (l & c0 & Hl & Hc0); [discriminate | exact H |].
    exists (c :: l), c0. split; [| exact Hc0].
    cbn [list_ascii_of_string] in *. rewrite Hl. reflexivity.
Qed.

Lemma sep_free_stripped s :
  sep_free (list_ascii_of_string s) = true -> stripped s.
Proof.
  unfold stripped. induction s as [| c s IH]; [reflexivity |].
  cbn [list_ascii_of_string sep_free forallb].
  intros H. apply andb_prop in H as [Hc Hs].
  destruct s as [| c' s'].
  - cbn. unfold is_sep in Hc. destruct (Ascii.eqb c OsPath.sep); [discriminate | reflexivity].
  - apply IH, Hs.
Qed.

Lemma stripped_append a b : b <> "" -> stripped b -> stripped (a +++ b).
Proof.
  unfold stripped. intros Hb H. induction a as [| c a IH]; [exact H |].
  cbn [String.append OsPath.endswith_sep].
  destruct (a +++ b) eqn:E; [| exact IH].
  destruct a; [cbn in E; congruence | discriminate].
Qed.

(** [dirname] of [a/t] is [a], when [a] is a non-empty stripped path and
    [t] has no separator. *)
Lemma dirname_child a t :
  a <> "" -> stripped a -> sep_free (list_ascii_of_string t) = true ->
  OsPath.dirname (a +++ "/" +++ t) = a.
Proof.
  intros Ha Hs Ht. destruct (stripped_last a Ha Hs) as (l & c & Hl & Hc).
  assert (E : list_ascii_of_string (a +++ "/" +++ t)
              = (l ++ [c]) ++ OsPath.sep :: list_ascii_of_string t).
  { rewrite list_of_append, Hl. reflexivity. }
  unfold OsPath.dirname. rewrite E. cbv zeta.
  rewrite (upto_last_sep_app (l ++ [c]) _ Ht).
  rewrite (not_all_sep l c Hc). cbn [negb].
  rewrite (rstrip_sep_one l c Hc), <- Hl.
  apply string_of_list_ascii_of_string.
Qed.

(** [dirname] of [/t] is [/]. *)
Lemma dirname_root_child t :
  sep_free (list_ascii_of_string t) = true ->
  OsPath.dirname ("/" +++ t) = "/".
Proof.
  intros Ht. unfold OsPath.dirname.
  change (list_ascii_of_string ("/" +++ t))
    with ([] ++ OsPath.sep :: list_ascii_of_string t).
  cbv zeta. rewrite (upto_last_sep_app [] _ Ht). reflexivity.
Qed.

(** *** The output directory *)

Lemma join2_child a b :
  a <> "" -> stripped a -> OsPath.startswith_sep b = false ->
  OsPath.join2 a b = a +++ "/" +++ b.
Proof.
  intros Ha Hs Hb. unfold OsPath.join2. rewrite Hb.
  unfold stripped in Hs. rewrite Hs.
  destruct a; [congruence | reflexivity].
Qed.

Lemma output_dir_under env root :
  OsPath.dirname (OsPath.dirname (script env)) = root ->
  root <> "" -> stripped root ->
  output_dir env = root +++ "/docs/test-forms".
Proof.
  intros Hd Hne Hs. unfold output_dir, OsPath.join. rewrite Hd.
  cbn [fold_left].
  rewrite (join2_child root "docs" Hne Hs eq_refl).
  rewrite join2_child; [| | | reflexivity].
  - rewrite append_assoc. reflexivity.
  - destruct root; [congruence | discriminate].
  - apply stripped_append; [discriminate | reflexivity].
Qed.


Lemma dirname_sep_free s :
  sep_free (list_ascii_of_string s) = true -> OsPath.dirname s = "".
Proof.
  intros H. unfold OsPath.dirname. rewrite (upto_last_sep_free _ H). reflexivity.
Qed.

Lemma names_relative name : In name names -> OsPath.startswith_sep name = false.
Proof.
  intros H. vm_compute in H.
  destruct H as [<- | [<- | [<- | [<- | []]]]]; reflexivity.
Qed.

(** X7.  For a script at [root/d/leaf], where [root] is empty or ends in
    something else than a separator, [main] writes under
    [root/docs/test-forms]: the directory beside the script's own directory,
    whatever that one is called.  Each document goes to its file name
    directly under it. *)
Theorem script_location env root d leaf :
  script env = root +++ "/" +++ d +++ "/" +++ leaf ->
  stripped root ->
  component d ->
  sep_free (list_ascii_of_string leaf) = true ->
  output_dir env = root +++ "/docs/test-forms"
  /\ forall name,
       In name names ->
       output_path env name = root +++ "/docs/test-forms/" +++ name.
Proof.
  intros Hscript Hroot [Hd Hdfree] Hleaf.
  assert (Hdir : output_dir env = root +++ "/docs/test-forms").
  { assert (H1 : OsPath.dirname (script env) = root +++ "/" +++ d).
    { rewrite Hscript.
      change (root +++ "/" +++ d +++ "/" +++ leaf)
        with (root +++ ("/" +++ d) +++ "/" +++ leaf).
      rewrite <- (append_assoc root ("/" +++ d) ("/" +++ leaf)).
      apply dirname_child.
      - destruct root; discriminate.
      - apply stripped_append; [discriminate |].
        apply (stripped_append "/" d Hd), sep_free_stripped, Hdfree.
      - exact Hleaf. }
    destruct root as [| c root'] eqn:Eroot.
    - unfold output_dir. rewrite H1.
      change ("" +++ "/" +++ d) with ("/" +++ d).
      rewrite (dirname_root_child d Hdfree). reflexivity.
    - rewrite <- Eroot in *. apply output_dir_under.
      + rewrite H1. apply dirname_child; [subst; discriminate | exact Hroot | exact Hdfree].
      + subst; discriminate.
      + exact Hroot. }
  split; [exact Hdir |].
  intros name Hname. unfold output_path, OsPath.join. cbn [fold_left].
  rewrite Hdir. rewrite join2_child.
  - rewrite append_assoc. reflexivity.
  - destruct root; discriminate.
  - apply stripped_append; [discriminate | reflexivity].
  - apply names_relative, Hname.
Qed.

Lemma script_location_witness :
  output_dir calm = "/repo" +++ "/docs/test-forms".
Proof.
  apply (script_location calm "/repo" "scripts" "generate_simple_forms.py").
  - reflexivity.
  - reflexivity.
  - split; [discriminate | reflexivity].
  - reflexivity.
Defined.

(** X8.  For a script given without a parent directory to go up to, as
    [leaf] or as [d/leaf], the second [dirname] is empty and [main] writes
    under the relative path [docs/test-forms]. *)
Theorem script_location_relative env d leaf :
  script env = leaf \/ (script env = d +++ "/" +++ leaf /\ component d) ->
  sep_free (list_ascii_of_string leaf) = true ->
  OsPath.dirname (OsPath.dirname (script env)) = ""
  /\ output_dir env = "docs/test-forms".
Proof.
  intros Hscript Hleaf.
  assert (H : OsPath.dirname (OsPath.dirname (script env)) = "").
  { destruct Hscript as [-> | [-> [Hd Hdfree]]].
    - rewrite (dirname_sep_free leaf Hleaf). reflexivity.
    - rewrite dirname_child;
        [| exact Hd | apply sep_free_stripped, Hdfree | exact Hleaf].
      apply dirname_sep_free, Hdfree. }
  split; [exact H |]. unfold output_dir. rewrite H. reflexivity.
Qed.

Lemma script_location_relative_witness :
  output_dir {| clock := noon; script := "scripts/generate_simple_forms.py";
                fault := fun _ => None |}
  = "docs/test-forms".
Proof.
  apply (script_location_relative
           {| clock := noon; script := "scripts/generate_simple_forms.py";
              fault := fun _ => None |}
           "scripts" "generate_simple_forms.py").
  - right. split; [reflexivity |]. split; [discriminate | reflexivity].
  - reflexivity.
Defined.

(** X9.  Wherever the script lies, the four documents get four different
    paths: no document is written over another. *)
Theorem output_paths_distinct env : NoDup (map (output_path env) names).
Proof.
  assert (Hneq : forall n n', In n names -> In n' names -> n <> n' ->
                              output_path env n <> output_path env n').
  { intros n n' Hn Hn' Hne Heq. apply Hne.
    eapply output_path_inj; eassumption. }
  unfold names, generators. cbn [map fst].
  repeat constructor; cbn [In]; intros H;
    repeat (destruct H as [H | H]; [revert H; apply Hneq;
                                    [vm_compute; auto 6 | vm_compute; auto 6 | discriminate] |]);
    exact H.
Qed.

(* ===================================================================== *)
(** ** Field names within a document *)
(* ===================================================================== *)

(** Two widgets of one document may carry the same name only as members of
    a radio group, told apart by their values. *)
Definition may_share_name (f g : FieldDef) : Prop :=
  arg_str "name" f = arg_str "name" g ->
  fst f = radio /\ fst g = radio /\ arg_str "value" f <> arg_str "value" g.

Definition is_named (f : FieldDef) : Prop := exists n, arg_str "name" f = Some n.

(** X10.  In each of the four documents every widget is given a name, and
    two widgets have the same name only if both are radio buttons with
    different values. *)
Theorem field_names_unique name g env w p w' doc :
  In (name, g) generators ->
  run (g p) env w = (Ok tt, w') ->
  read_file p w' = Some doc ->
  Forall is_named (fields doc)
  /\ ForallOrdPairs may_share_name (fields doc).
Proof.
  intros Hin Hrun Hread.
  rewrite (generator_document _ _ Hin _ _ _ _ _ Hrun Hread).
  clear Hrun Hread. each_generator Hin.
  all: match goal with |- _ /\ ForallOrdPairs _ ?t => list_out t end.
  all: split; [repeat constructor; eexists; reflexivity |].
  all: repeat (first [apply FOP_nil | apply FOP_cons | apply Forall_nil
                     | apply Forall_cons]).
  all: unfold may_share_name; vm_compute; intros Hsame;
    first [discriminate Hsame | repeat split; discriminate].
Qed.

Lemma field_names_unique_witness :
  ForallOrdPairs may_share_name
    (fields (document create_choice_fields_pdf noon "choice-fields.pdf")).
Proof.
  apply (field_names_unique "choice-fields.pdf" create_choice_fields_pdf
           calm world0 "choice-fields.pdf"
           (snd (run (create_choice_fields_pdf "choice-fields.pdf") calm world0))).
  - right. right. left. reflexivity.
  - vm_compute. reflexivity.
  - vm_compute. reflexivity.
Defined.

(* ===================================================================== *)
(** ** The script as a whole *)
(* ===================================================================== *)

Definition install_hint : string :=
  "Please install reportlab: pip install reportlab".

(** The module body: the guarded import of reportlab, the definitions, and
    the call of [main] when the module is run as a script.  Whether the
    import succeeds is decided outside the script. *)
Definition script_body (reportlab_importable : bool) (dunder_name : string)
  : M unit :=
  (if reportlab_importable then ret tt
   else print install_hint ;; sys_exit 1) ;;
  if String.eqb dunder_name "__main__" then main else ret tt.

(** X13.  Whatever happens, the script ends with exit status 0 or 1.  When
    reportlab cannot be imported it prints the installation hint and exits
    with status 1 without making a single library call.  When it is
    imported as a module it does nothing.  And when it is run as a script
    and ends with status 0, each of the four output paths holds the
    document of its generator. *)
Theorem script_exit_status importable name env w :
  let r := run (script_body importable name) env w in
  (exit_status (fst r) = 0 \/ exit_status (fst r) = 1)
  /\ (importable = false ->
      r = (Raise (SystemExit 1), println install_hint w))
  /\ (importable = true -> name <> "__main__" -> r = (Ok tt, w))
  /\ (name = "__main__" -> exit_status (fst r) = 0 ->
      forall n g,
        In (n, g) generators ->
        read_file (output_path env n) (snd r)
        = Some (document g (clock env) (output_path env n))).
Proof.
  cbv zeta. destruct importable.
  - (* the import succeeded *)
    assert (Hbody : run (script_body true name) env w
                    = if String.eqb name "__main__" then run main env w
                      else (Ok tt, w)).
    { unfold script_body, run. cbn [bind Monad_M ret].
      destruct (String.eqb name "__main__"); reflexivity. }
    rewrite Hbody. clear Hbody.
    destruct (String.eqb_spec name "__main__") as [-> | Hname].
    + destruct (fault env (length (calls w))) as [msg |] eqn:Hfault.
      * assert (Hmain : run main env w
                        = (Raise (Exception msg),
                           log (Makedirs (output_dir env)) w)).
        { rewrite main_unfold. unfold run. cbn [bind Monad_M].
          unfold os_makedirs, lib_call. rewrite Hfault. reflexivity. }
        rewrite Hmain. cbn [fst snd exit_status].
        split; [right; reflexivity |].
        split; [discriminate |]. split; [congruence |].
        intros _ H. discriminate H.
      * destruct (main_cases env w Hfault)
          as [(w' & Hmain & _ & Hdocs) | (msg & w' & Hmain & _)];
          rewrite Hmain; cbn [fst snd exit_status].
        -- split; [left; reflexivity |].
           split; [discriminate |]. split; [congruence |].
           intros _ _. exact Hdocs.
        -- split; [right; reflexivity |].
           split; [discriminate |]. split; [congruence |].
           intros _ H. discriminate H.
    + cbn [fst snd exit_status].
      split; [left; reflexivity |].
      split; [discriminate |]. split; [reflexivity |].
      intros H. contradiction.
  - (* reportlab is missing *)
    assert (Hbody : run (script_body false name) env w
                    = (Raise (SystemExit 1), println install_hint w)).
    { reflexivity. }
    rewrite Hbody. cbn [fst snd exit_status].
    split; [right; reflexivity |].
    split; [reflexivity |]. split; [discriminate |].
    intros _ H. discriminate H.
Qed.

(* ===================================================================== *)
(** ** The calls a run attempts *)
(* ===================================================================== *)

(** The first of the [n] library calls numbered from [start] that fails,
    counted from 0, with its message. *)
Fixpoint first_fault (env : Env) (start n : nat) : option (nat * string) :=
  match n with
  | O => None
  | S n' =>
      match fault env start with
      | Some msg => Some (O, msg)
      | None =>
          match first_fault env (S start) n' with
          | Some (j, msg) => Some (S j, msg)
          | None => None
          end
      end
  end.

(** [m] is a straight line of library calls [evs]: it attempts them in
    order, stops with the library's exception at the first one that fails,
    and returns [a] if none does. *)
Definition Attempts (now : datetime) {A} (m : M A) (evs : list Call) (a : A)
  : Prop :=
  forall env w,
    clock env = now ->
    match first_fault env (length (calls w)) (length evs) with
    | Some (j, msg) =>
        exists w',
          run m env w = (Raise (Exception msg), w')
          /\ calls w' = rev (firstn (S j) evs) ++ calls w
    | None =>
        exists w',
          run m env w = (Ok a, w')
          /\ calls w' = rev evs ++ calls w
    end.

Lemma first_fault_spec env : forall n start,
  match first_fault env start n with
  | Some (j, msg) =>
      (j < n)%nat
      /\ fault env (start + j) = Some msg
      /\ forall i, (i < j)%nat -> fault env (start + i) = None
  | None => forall i, (i < n)%nat -> fault env (start + i) = None
  end.
Proof.
  induction n as [| n IH]; intros start; cbn [first_fault].
  - intros i Hi. lia.
  - destruct (fault env start) as [msg |] eqn:F.
    + split; [lia |]. split; [rewrite Nat.add_0_r; exact F |].
      intros i Hi. lia.
    + specialize (IH (S start)).
      destruct (first_fault env (S start) n) as [[j msg] |].
      * destruct IH as (Hj & Hf & Hn). split; [lia |].
        split; [rewrite <- Nat.add_succ_comm; exact Hf |].
        intros [| i] Hi; [rewrite Nat.add_0_r; exact F |].
        rewrite <- Nat.add_succ_comm. apply Hn. lia.
      * intros [| i] Hi; [rewrite Nat.add_0_r; exact F |].
        rewrite <- Nat.add_succ_comm. apply IH. lia.
Qed.

Lemma first_fault_app env : forall n1 n2 start,
  first_fault env start (n1 + n2)
  = match first_fault env start n1 with
    | Some found => Some found
    | None =>
        match first_fault env (start + n1) n2 with
        | Some (j, msg) => Some (n1 + j, msg)%nat
        | None => None
        end
    end.
Proof.
  induction n1 as [| n1 IH]; intros n2 start; cbn [first_fault Nat.add].
  - rewrite Nat.add_0_r. destruct (first_fault env start n2) as [[j msg] |]; reflexivity.
  - destruct (fault env start); [reflexivity |].
    rewrite IH. rewrite <- Nat.add_succ_comm.
    destruct (first_fault env (S start) n1) as [[j msg] |]; [reflexivity |].
    destruct (first_fault env (S start + n1) n2) as [[j msg] |]; reflexivity.
Qed.

Lemma first_fault_none env n start :
  (forall i, (i < n)%nat -> fault env (start + i) = None) ->
  first_fault env start n = None.
Proof.
  intros H. pose proof (first_fault_spec env n start) as S.
  destruct (first_fault env start n) as [[j msg] |]; [| reflexivity].
  destruct S as (Hj & Hf & _). rewrite (H j Hj) in Hf. discriminate.
Qed.

Lemma first_fault_some env n start j msg :
  (j < n)%nat ->
  fault env (start + j) = Some msg ->
  (forall i, (i < j)%nat -> fault env (start + i) = None) ->
  first_fault env start n = Some (j, msg).
Proof.
  intros Hj Hf Hn. pose proof (first_fault_spec env n start) as S.
  destruct (first_fault env start n) as [[j' msg'] |].
  - destruct S as (Hj' & Hf' & Hn').
    destruct (Nat.lt_trichotomy j j') as [L | [E | L]].
    + rewrite (Hn' j L) in Hf. discriminate.
    + subst j'. rewrite Hf in Hf'. injection Hf' as <-. reflexivity.
    + rewrite (Hn j' L) in Hf'. discriminate.
  - rewrite (S j Hj) in Hf. discriminate.
Qed.

Section AttemptsRules.

Variable now : datetime.

Lemma attempts_ret {A} (a : A) : Attempts now (ret a) [] a.
Proof. intros env w _. cbn. exists w. split; reflexivity. Qed.

Lemma attempts_print (s : string) : Attempts now (print s) [] tt.
Proof. intros env w _. cbn. exists (println s w). split; reflexivity. Qed.

Lemma attempts_datetime_now : Attempts now datetime_now [] now.
Proof.
  intros env w Hclock. cbn. exists w. split; [| reflexivity].
  unfold run, datetime_now. rewrite Hclock. reflexivity.
Qed.

Lemma attempts_lib_call {A} (ev : Call) (a : A) (effect : World -> World) :
  (forall w, calls (effect w) = calls w) ->
  Attempts now (lib_call ev a effect) [ev] a.
Proof.
  intros Heff env w _. cbn [length first_fault]. unfold run, lib_call.
  destruct (fault env (length (calls w))) as [msg |].
  - exists (log ev w). split; reflexivity.
  - exists (effect (log ev w)). split; [reflexivity |]. rewrite Heff. reflexivity.
Qed.

Lemma attempts_bind {A B} (m : M A) (k : A -> M B) evs1 evs2 a b :
  Attempts now m evs1 a ->
  Attempts now (k a) evs2 b ->
  Attempts now (bind m k) (evs1 ++ evs2) b.
Proof.
  intros Hm Hk env w Hclock. specialize (Hm env w Hclock).
  rewrite length_app, first_fault_app.
  pose proof (first_fault_spec env (length evs1) (length (calls w))) as S1.
  destruct (first_fault env (length (calls w)) (length evs1)) as [[j msg] |].
  - destruct Hm as (w1 & Hrun & Hcalls). destruct S1 as (Hj & _).
    exists w1. split.
    + unfold run in *. cbn [bind Monad_M]. rewrite Hrun. reflexivity.
    + rewrite Hcalls. rewrite firstn_app.
      replace (S j - length evs1)%nat with O by lia.
      cbn [firstn]. rewrite app_nil_r. reflexivity.
  - destruct Hm as (w1 & Hrun & Hcalls).
    specialize (Hk env w1 Hclock).
    assert (Hlen : length (calls w1) = (length (calls w) + length evs1)%nat).
    { rewrite Hcalls, length_app, length_rev. lia. }
    rewrite Hlen in Hk.
    destruct (first_fault env (length (calls w) + length evs1) (length evs2))
      as [[j msg] |].
    + destruct Hk as (w2 & Hrun2 & Hcalls2). exists w2. split.
      * unfold run in *. cbn [bind Monad_M]. rewrite Hrun. exact Hrun2.
      * rewrite Hcalls2, Hcalls.
        replace (S (length evs1 + j)) with (length evs1 + S j)%nat by lia.
        rewrite firstn_app_2, rev_app_distr, app_assoc. reflexivity.
    + destruct Hk as (w2 & Hrun2 & Hcalls2). exists w2. split.
      * unfold run in *. cbn [bind Monad_M]. rewrite Hrun. exact Hrun2.
      * rewrite Hcalls2, Hcalls, rev_app_distr, app_assoc. reflexivity.
Qed.

Lemma attempts_eq {A} (m : M A) evs evs' a :
  Attempts now m evs a -> evs = evs' -> Attempts now m evs' a.
Proof. intros H <-. exact H. Qed.

End AttemptsRules.

Ltac attempts_step :=
  cbv beta iota; cbn [for_in];
  lazymatch goal with
  | |- Attempts _ (bind _ _) _ _ =>
      eapply attempts_bind; [attempts_step | attempts_step]
  | |- Attempts _ (canvas_Canvas _ _) _ _ =>
      apply attempts_lib_call; reflexivity
  | |- Attempts _ (issue _ _) _ _ =>
      apply attempts_lib_call; reflexivity
  | |- Attempts _ (save _) _ _ =>
      apply attempts_lib_call; reflexivity
  | |- Attempts _ (print _) _ _ => apply attempts_print
  | |- Attempts _ datetime_now _ _ => apply attempts_datetime_now
  | |- Attempts _ (ret _) _ _ => apply attempts_ret
  end.

Ltac attempts :=
  unfold setFont, drawString, line, acroForm_textfield, acroForm_checkbox,
    acroForm_radio, acroForm_choice;
  cbv zeta;
  eapply attempts_eq; [attempts_step | vm_compute; reflexivity].

(** The library calls a generator makes when none of them fails, in order,
    read off a run of the generator itself. *)
Definition call_sequence (g : string -> M unit) (now : datetime) (p : string)
  : list Call :=
  let env := {| clock := now; script := ""; fault := fun _ => None |} in
  rev (calls (snd (run (g p) env world0))).

Lemma create_basic_form_pdf_attempts now p :
  Attempts now (create_basic_form_pdf p)
           (call_sequence create_basic_form_pdf now p) tt.
Proof. unfold create_basic_form_pdf. attempts. Qed.

Lemma create_text_fields_pdf_attempts now p :
  Attempts now (create_text_fields_pdf p)
           (call_sequence create_text_fields_pdf now p) tt.
Proof. unfold create_text_fields_pdf. attempts. Qed.

Lemma create_choice_fields_pdf_attempts now p :
  Attempts now (create_choice_fields_pdf p)
           (call_sequence create_choice_fields_pdf now p) tt.
Proof. unfold create_choice_fields_pdf. attempts. Qed.

Lemma create_mixed_form_pdf_attempts now p :
  Attempts now (create_mixed_form_pdf p)
           (call_sequence create_mixed_form_pdf now p) tt.
Proof. unfold create_mixed_form_pdf. attempts. Qed.

Lemma generator_attempts name g now p :
  In (name, g) generators -> Attempts now (g p) (call_sequence g now p) tt.
Proof.
  intros Hin. each_generator Hin.
  - apply create_basic_form_pdf_attempts.
  - apply create_text_fields_pdf_attempts.
  - apply create_choice_fields_pdf_attempts.
  - apply create_mixed_form_pdf_attempts.
Qed.

(** The calls made from [w] to [w'], oldest first. *)
Definition new_calls (w w' : World) : list Call :=
  rev (firstn (length (calls w') - length (calls w)) (calls w')).

Lemma new_calls_app evs w w' :
  calls w' = rev evs ++ calls w -> new_calls w w' = evs.
Proof.
  intros H. unfold new_calls. rewrite H, length_app, length_rev.
  replace (length evs + length (calls w) - length (calls w))%nat
    with (length (rev evs) + 0)%nat by (rewrite length_rev; lia).
  rewrite firstn_app_2. cbn [firstn]. rewrite app_nil_r. apply rev_involutive.
Qed.

(** How a run of straight-line code ends: it has attempted the first [k]
    calls of its sequence; it returned if none of them failed, and
    otherwise the [k]-th is the first that failed. *)
Lemma attempts_run now {A} (m : M A) evs a env w r w' :
  Attempts now m evs a ->
  clock env = now ->
  run m env w = (r, w') ->
  exists k,
    new_calls w w' = firstn k evs
    /\ (k <= length evs)%nat
    /\ (forall i, (S i < k)%nat -> fault env (length (calls w) + i) = None)
    /\ match r with
       | Ok _ =>
           k = length evs
           /\ forall i, (i < k)%nat -> fault env (length (calls w) + i) = None
       | Raise e =>
           exists j msg,
             k = S j /\ e = Exception msg
             /\ fault env (length (calls w) + j) = Some msg
       end.
Proof.
  intros Hm Hclock Hrun. specialize (Hm env w Hclock).
  pose proof (first_fault_spec env (length evs) (length (calls w))) as S.
  destruct (first_fault env (length (calls w)) (length evs)) as [[j msg] |].
  - destruct Hm as (w1 & Hrun1 & Hcalls). rewrite Hrun1 in Hrun.
    injection Hrun as <- <-. destruct S as (Hj & Hf & Hn).
    exists (S j). split; [apply new_calls_app, Hcalls |].
    split; [lia |]. split; [intros i Hi; apply Hn; lia |].
    exists j, msg. auto.
  - destruct Hm as (w1 & Hrun1 & Hcalls). rewrite Hrun1 in Hrun.
    injection Hrun as <- <-.
    exists (length evs). split; [rewrite firstn_all; apply new_calls_app, Hcalls |].
    split; [lia |]. split; [intros i Hi; apply S; lia |].
    split; [reflexivity | exact S].
Qed.

(* ===================================================================== *)
(** ** The library as released *)
(* ===================================================================== *)

(** reportlab's [acroForm.choice] does not complete when it is given an
    empty [value] (the default included): it raises [UnboundLocalError].
    These are the calls concerned. *)
Definition blank_choice (ev : Call) : bool :=
  match ev with
  | Draw _ (Field choice args) =>
      match kw "value" args with
      | Some (Str s) => String.eqb s ""
      | Some _ => false
      | None => true
      end
  | _ => false
  end.

Definition faulted (env : Env) (k : nat) : bool :=
  match fault env k with Some _ => true | None => false end.

(** Calls with the number each has in the fault table. *)
Definition numbered (start : nat) (evs : list Call) : list (nat * Call) :=
  combine (seq start (length evs)) evs.

(** In the run from [w] to [w'], every choice call with an empty value met
    a fault. *)
Definition refuses_blank_choice (env : Env) (w w' : World) : bool :=
  forallb (fun ke => implb (blank_choice (snd ke)) (faulted env (fst ke)))
          (numbered (length (calls w)) (new_calls w w')).

Lemma numbered_nth (f : nat * Call -> bool) : forall evs start i ev,
  forallb f (numbered start evs) = true ->
  nth_error evs i = Some ev ->
  f ((start + i)%nat, ev) = true.
Proof.
  unfold numbered. induction evs as [| e evs IH]; intros start i ev Hall Hnth.
  - destruct i; discriminate.
  - cbn [length seq combine forallb] in Hall.
    apply andb_prop in Hall as [He Hall].
    destruct i as [| i]; cbn [nth_error] in Hnth.
    + injection Hnth as <-. rewrite Nat.add_0_r. exact He.
    + rewrite <- Nat.add_succ_comm. apply IH; assumption.
Qed.

Lemma refuses_blank_choice_nth env w w' i ev :
  refuses_blank_choice env w w' = true ->
  nth_error (new_calls w w') i = Some ev ->
  blank_choice ev = true ->
  fault env (length (calls w) + i) <> None.
Proof.
  intros Hall Hnth Hblank.
  pose proof (numbered_nth _ _ _ _ _ Hall Hnth) as H.
  cbn [fst snd] in H. rewrite Hblank in H. cbn [implb] in H.
  unfold faulted in H. destruct (fault env (length (calls w) + i)); [discriminate | discriminate H].
Qed.

(** Under a library that refuses blank choices, a run whose sequence has
    such a call at position [b] stops at or before it. *)
Lemma stops_at_blank now {A} (m : M A) evs a env w r w' b ev :
  Attempts now m evs a ->
  clock env = now ->
  run m env w = (r, w') ->
  refuses_blank_choice env w w' = true ->
  nth_error evs b = Some ev ->
  blank_choice ev = true ->
  exists j msg,
    (j <= b)%nat
    /\ r = Raise (Exception msg)
    /\ fault env (length (calls w) + j) = Some msg
    /\ new_calls w w' = firstn (S j) evs.
Proof.
  intros Hm Hclock Hrun Hlib Hb Hblank.
  destruct (attempts_run _ _ _ _ _ _ _ _ Hm Hclock Hrun)
    as (k & Hnew & Hk & Hbefore & Hend).
  assert (Hreach : (b < k)%nat -> fault env (length (calls w) + b) <> None).
  { intros Hbk. eapply refuses_blank_choice_nth; [exact Hlib | | exact Hblank].
    rewrite Hnew, nth_error_firstn.
    destruct (Nat.ltb_spec b k); [exact Hb | lia]. }
  destruct r as [u | e].
  - destruct Hend as [-> Hnone].
    assert (Hbk : (b < length evs)%nat).
    { apply nth_error_Some. rewrite Hb. discriminate. }
    exfalso. apply (Hreach Hbk). apply Hnone. exact Hbk.
  - destruct Hend as (j & msg & -> & -> & Hf).
    exists j, msg. split; [| auto].
    destruct (Nat.le_gt_cases j b) as [Hle | Hgt]; [exact Hle |].
    exfalso. apply Hreach; [lia |]. apply Hbefore. lia.
Qed.

Lemma in_firstn_le {A} (x : A) (l : list A) (j b : nat) :
  (j <= b)%nat -> In x (firstn j l) -> In x (firstn b l).
Proof.
  intros Hle Hin.
  replace j with (Nat.min j b) in Hin by lia.
  rewrite <- firstn_firstn in Hin. eapply in_firstn. exact Hin.
Qed.

(** The message reportlab's [acroForm.choice] fails with. *)
Definition lbextras : string :=
  "cannot access local variable 'lbextras' where it is not associated with a value".

(** The library at work on one document: every call succeeds until the
    [k]-th, which fails as [acroForm.choice] does. *)
Definition choice_fails_at (k : nat) : Env := failing_at k lbextras.

Ltac nth_call seq k ev E :=
  destruct (nth_error seq k) as [ev |] eqn:E;
  [ let E' := fresh E in
    pose proof E as E'; vm_compute in E'; injection E' as <-
  | vm_compute in E; discriminate E ].

(* ===================================================================== *)
(** ** choice-fields.pdf: the call that creates [state] *)
(* ===================================================================== *)

(** C1, as amended.  Whenever [create_choice_fields_pdf] creates the choice
    field [state], it passes exactly 13 option pairs: a blank first entry
    followed by 12 entries whose value is not blank.  It gets to that call,
    the eighth it makes, whenever the seven calls before it succeed, and it
    passes the empty string as the value. *)
Theorem state_call_options env w p r w' :
  run (create_choice_fields_pdf p) env w = (r, w') ->
  (forall args,
     In (Draw p (Field choice args)) (new_calls w w') ->
     kw "name" args = Some (Str "state") ->
     exists first rest,
       kw "options" args = Some (Options (first :: rest))
       /\ first = ("", "-- Select State --")
       /\ length (first :: rest) = 13%nat
       /\ length rest = 12%nat
       /\ existsb is_blank rest = false)
  /\ ((forall i, (i < 7)%nat -> fault env (length (calls w) + i) = None) ->
      exists args,
        nth_error (new_calls w w') 7 = Some (Draw p (Field choice args))
        /\ kw "name" args = Some (Str "state")
        /\ kw "value" args = Some (Str "")).
Proof.
  intros Hrun.
  destruct (attempts_run _ _ _ _ _ _ _ _
              (create_choice_fields_pdf_attempts (clock env) p) eq_refl Hrun)
    as (k & Hnew & Hk & Hbefore & Hend).
  rewrite Hnew. split.
  - intros args Hin Hname. apply in_firstn in Hin.
    revert Hin.
    match goal with |- In _ ?t -> _ => list_out t end.
    cbn [In]. intros Hin.
    repeat (destruct Hin as [Hin | Hin];
            [try discriminate Hin;
             try (injection Hin as <-; vm_compute in Hname; discriminate Hname) |]);
      try contradiction.
    injection Hin as <-. do 2 eexists. split; [reflexivity |]. repeat split.
  - intros Hnone.
    assert (Hreach : (7 < k)%nat).
    { destruct r as [u | e].
      - destruct Hend as [-> _]. vm_compute. lia.
      - destruct Hend as (j & msg & -> & _ & Hf).
        destruct (Nat.le_gt_cases 7 j) as [Hle | Hgt]; [lia |].
        rewrite (Hnone j Hgt) in Hf. discriminate. }
    rewrite nth_error_firstn.
    destruct (Nat.ltb_spec 7 k) as [_ | Hle]; [| lia].
    eexists. split; [vm_compute; reflexivity |]. split; reflexivity.
Qed.

Lemma state_call_options_witness :
  exists args first rest,
    nth_error (new_calls world0
                 (snd (run (create_choice_fields_pdf "choice-fields.pdf")
                           (choice_fails_at 7) world0))) 7
    = Some (Draw "choice-fields.pdf" (Field choice args))
    /\ kw "options" args = Some (Options (first :: rest))
    /\ length (first :: rest) = 13%nat.
Proof.
  destruct (state_call_options (choice_fails_at 7) world0 "choice-fields.pdf"
              (fst (run (create_choice_fields_pdf "choice-fields.pdf")
                        (choice_fails_at 7) world0))
              (snd (run (create_choice_fields_pdf "choice-fields.pdf")
                        (choice_fails_at 7) world0)))
    as [Hsafe Hlive].
  - vm_compute. reflexivity.
  - destruct Hlive as (args & Hnth & Hname & _).
    + intros i Hi. vm_compute.
      do 7 (destruct i as [| i]; [reflexivity |]). lia.
    + destruct (Hsafe args (nth_error_In _ _ Hnth) Hname)
        as (first & rest & Hopts & _ & Hlen & _).
      exists args, first, rest. auto.
Defined.

(** C1, as the specification words it, fails on the one call that creates
    [state], in a run as the library gives it (every call succeeds until
    that one, which fails): the options passed are not 12. *)
Lemma state_call_not_12_options :
  ~ (forall args opts,
       In (Draw "choice-fields.pdf" (Field choice args))
          (new_calls world0
             (snd (run (create_choice_fields_pdf "choice-fields.pdf")
                       (choice_fails_at 7) world0))) ->
       kw "name" args = Some (Str "state") ->
       kw "options" args = Some (Options opts) ->
       length opts = 12%nat /\ option_map fst (hd_error opts) = Some "").
Proof.
  intros H.
  assert (Hx : exists args opts,
             In (Draw "choice-fields.pdf" (Field choice args))
                (new_calls world0
                   (snd (run (create_choice_fields_pdf "choice-fields.pdf")
                             (choice_fails_at 7) world0)))
             /\ kw "name" args = Some (Str "state")
             /\ kw "options" args = Some (Options opts)
             /\ length opts = 13%nat).
  { do 2 eexists. split.
    - match goal with |- In _ ?t => list_out t end.
      cbn [In]. do 7 right. left. reflexivity.
    - repeat split. }
  destruct Hx as (args & opts & Hin & Hname & Hopts & Hlen).
  destruct (H args opts Hin Hname Hopts) as [H12 _].
  rewrite Hlen in H12. discriminate H12.
Qed.

(** C2.  With a library that refuses a choice field whose value is empty,
    as reportlab does, [create_choice_fields_pdf] never gets past the call
    that creates [state]: it raises there or earlier, saves nothing, prints
    nothing, and has attempted no widget named [size].  The loop that
    creates the four [size] radio buttons comes after that call. *)
Theorem choice_fields_stops_at_state env w p r w' :
  run (create_choice_fields_pdf p) env w = (r, w') ->
  refuses_blank_choice env w w' = true ->
  (exists msg, r = Raise (Exception msg))
  /\ files w' = files w
  /\ stdout w' = stdout w
  /\ (forall kind args,
        In (Draw p (Field kind args)) (new_calls w w') ->
        kw "name" args <> Some (Str "size"))
  /\ ~ In (Save p) (new_calls w w').
Proof.
  intros Hrun Hlib.
  nth_call (call_sequence create_choice_fields_pdf (clock env) p) 7%nat ev E.
  destruct (stops_at_blank _ _ _ _ _ _ _ _ 7%nat _
              (create_choice_fields_pdf_attempts (clock env) p)
              eq_refl Hrun Hlib E eq_refl)
    as (j & msg & Hj & -> & Hf & Hnew).
  split; [exists msg; reflexivity |].
  destruct (create_choice_fields_pdf_fails_clean p _ _ _ _ Hrun)
    as [_ (Hfiles & Hout & _)].
  split; [exact Hfiles |]. split; [exact Hout |].
  rewrite Hnew.
  assert (Hin8 : forall ev,
             In ev (firstn (S j) (call_sequence create_choice_fields_pdf (clock env) p)) ->
             In ev (firstn 8 (call_sequence create_choice_fields_pdf (clock env) p))).
  { intros ev. apply in_firstn_le. lia. }
  split.
  - intros kind args Hin. apply Hin8 in Hin. revert Hin.
    match goal with |- In _ ?t -> _ => list_out t end.
    cbn [In]. intros Hin.
    repeat (destruct Hin as [Hin | Hin];
            [try discriminate Hin;
             try (injection Hin as <- <-; vm_compute; discriminate) |]).
    contradiction.
  - intros Hin. apply Hin8 in Hin. revert Hin.
    match goal with |- In _ ?t -> _ => list_out t end.
    cbn [In]. intros Hin.
    repeat (destruct Hin as [Hin | Hin]; [discriminate Hin |]).
    contradiction.
Qed.

Lemma choice_fields_stops_at_state_witness :
  exists msg,
    fst (run (create_choice_fields_pdf "choice-fields.pdf")
             (choice_fails_at 7) world0)
    = Raise (Exception msg).
Proof.
  apply (choice_fields_stops_at_state (choice_fails_at 7) world0
           "choice-fields.pdf"
           (fst (run (create_choice_fields_pdf "choice-fields.pdf")
                     (choice_fails_at 7) world0))
           (snd (run (create_choice_fields_pdf "choice-fields.pdf")
                     (choice_fails_at 7) world0))).
  - vm_compute. reflexivity.
  - vm_compute. reflexivity.
Defined.

(** What the loop would create: in the sequence of calls the generator is
    written to make, the widgets named [size] are four radio buttons, the
    one made from 'M' selected, and all of them come after [state]. *)
Lemma size_calls_after_state now p :
  let positions :=
    filter (fun kc => match snd kc with
                      | Draw _ (Field _ args) =>
                          match kw "name" args with
                          | Some (Str n) => String.eqb n "size" || String.eqb n "state"
                          | _ => false
                          end
                      | _ => false
                      end)
           (numbered 0 (call_sequence create_choice_fields_pdf now p)) in
  map (fun kc => (fst kc,
                  match snd kc with
                  | Draw _ (Field kind args) =>
                      Some (kind, kw "name" args, kw "value" args, kw "selected" args)
                  | _ => None
                  end)) positions
  = [ (7%nat, Some (choice, Some (Str "state"), Some (Str ""), None));
      (9%nat, Some (radio, Some (Str "size"), Some (Str "s"), Some (Bool false)));
      (11%nat, Some (radio, Some (Str "size"), Some (Str "m"), Some (Bool true)));
      (13%nat, Some (radio, Some (Str "size"), Some (Str "l"), Some (Bool false)));
      (15%nat, Some (radio, Some (Str "size"), Some (Str "xl"), Some (Bool false))) ].
Proof. vm_compute. reflexivity. Qed.

(* ===================================================================== *)
(** ** mixed-form.pdf: the call that creates [countrySelect] *)
(* ===================================================================== *)

(** C4.  With a library that refuses a choice field whose value is empty,
    as reportlab does, [create_mixed_form_pdf] never gets past the call that
    creates [countrySelect]: it raises there or earlier, saves nothing,
    prints nothing, and has attempted no widget named [terms]. *)
Theorem mixed_form_stops_at_country env w p r w' :
  run (create_mixed_form_pdf p) env w = (r, w') ->
  refuses_blank_choice env w w' = true ->
  (exists msg, r = Raise (Exception msg))
  /\ files w' = files w
  /\ stdout w' = stdout w
  /\ (forall kind args,
        In (Draw p (Field kind args)) (new_calls w w') ->
        kw "name" args <> Some (Str "terms"))
  /\ ~ In (Save p) (new_calls w w').
Proof.
  intros Hrun Hlib.
  nth_call (call_sequence create_mixed_form_pdf (clock env) p) 14%nat ev E.
  destruct (stops_at_blank _ _ _ _ _ _ _ _ 14%nat _
              (create_mixed_form_pdf_attempts (clock env) p)
              eq_refl Hrun Hlib E eq_refl)
    as (j & msg & Hj & -> & Hf & Hnew).
  split; [exists msg; reflexivity |].
  destruct (create_mixed_form_pdf_fails_clean p _ _ _ _ Hrun)
    as [_ (Hfiles & Hout & _)].
  split; [exact Hfiles |]. split; [exact Hout |].
  rewrite Hnew.
  assert (Hin15 : forall ev,
             In ev (firstn (S j) (call_sequence create_mixed_form_pdf (clock env) p)) ->
             In ev (firstn 15 (call_sequence create_mixed_form_pdf (clock env) p))).
  { intros ev. apply in_firstn_le. lia. }
  split.
  - intros kind args Hin. apply Hin15 in Hin. revert Hin.
    match goal with |- In _ ?t -> _ => list_out t end.
    cbn [In]. intros Hin.
    repeat (destruct Hin as [Hin | Hin];
            [try discriminate Hin;
             try (injection Hin as <- <-; vm_compute; discriminate) |]).
    contradiction.
  - intros Hin. apply Hin15 in Hin. revert Hin.
    match goal with |- In _ ?t -> _ => list_out t end.
    cbn [In]. intros Hin.
    repeat (destruct Hin as [Hin | Hin]; [discriminate Hin |]).
    contradiction.
Qed.

Lemma mixed_form_stops_at_country_witness :
  exists msg,
    fst (run (create_mixed_form_pdf "mixed-form.pdf") (choice_fails_at 14) world0)
    = Raise (Exception msg).
Proof.
  apply (mixed_form_stops_at_country (choice_fails_at 14) world0
           "mixed-form.pdf"
           (fst (run (create_mixed_form_pdf "mixed-form.pdf")
                     (choice_fails_at 14) world0))
           (snd (run (create_mixed_form_pdf "mixed-form.pdf")
                     (choice_fails_at 14) world0))).
  - vm_compute. reflexivity.
  - vm_compute. reflexivity.
Defined.

(** What the generator would create: in the sequence of calls it is written
    to make, the widgets of the claim and the choice field before [terms]. *)
Lemma mixed_form_calls_by_name now p :
  map (fun kc => (fst kc,
                  match snd kc with
                  | Draw _ (Field kind args) =>
                      Some (kind, kw "name" args, kw "fieldFlags" args,
                            kw "maxlen" args)
                  | _ => None
                  end))
      (filter (fun kc => match snd kc with
                         | Draw _ (Field _ _) => true
                         | _ => false
                         end)
              (numbered 0 (call_sequence create_mixed_form_pdf now p)))
  = [ (6%nat, Some (textfield, Some (Str "firstName"), Some (Str "required"), None));
      (8%nat, Some (textfield, Some (Str "lastName"), Some (Str "required"), None));
      (10%nat, Some (textfield, Some (Str "emailAddress"), Some (Str "required"), None));
      (12%nat, Some (textfield, Some (Str "age"), None, Some (Int 3)));
      (14%nat, Some (choice, Some (Str "countrySelect"), None, None));
      (16%nat, Some (checkbox, Some (Str "newsletter"), None, None));
      (18%nat, Some (checkbox, Some (Str "terms"), Some (Str "required"), None)) ].
Proof. vm_compute. reflexivity. Qed.

(* ===================================================================== *)
(** ** Two runs of one operation, completed or not *)
(* ===================================================================== *)

Definition field_call (ev : Call) : list FieldDef :=
  match ev with
  | Draw _ o => field_of o
  | _ => []
  end.

Definition field_calls (evs : list Call) : list FieldDef :=
  concat (map field_call evs).

(** The field definitions a run has handed to the library, in order,
    whether or not the library accepted the last of them. *)
Definition fields_attempted (w w' : World) : list FieldDef :=
  field_calls (new_calls w w').

Definition prefix_of {A} (l1 l2 : list A) : Prop :=
  exists rest, l2 = l1 ++ rest.

Lemma field_calls_app l1 l2 :
  field_calls (l1 ++ l2) = field_calls l1 ++ field_calls l2.
Proof. unfold field_calls. rewrite map_app, concat_app. reflexivity. Qed.

Lemma field_calls_firstn_le (j k : nat) (l : list Call) :
  (j <= k)%nat ->
  prefix_of (field_calls (firstn j l)) (field_calls (firstn k l)).
Proof.
  intros Hle.
  exists (field_calls (skipn j (firstn k l))).
  rewrite <- field_calls_app.
  replace (firstn j l) with (firstn j (firstn k l)).
  - rewrite firstn_skipn. reflexivity.
  - rewrite firstn_firstn. f_equal. lia.
Qed.

(** The field definitions in a generator's sequence of calls do not depend
    on the clock, call by call. *)
Lemma field_call_ignores_clock name g now1 now2 p :
  In (name, g) generators ->
  map field_call (call_sequence g now1 p)
  = map field_call (call_sequence g now2 p).
Proof.
  intros Hin. each_generator Hin.
  all: vm_compute; reflexivity.
Qed.

Lemma field_calls_firstn_ignore_clock name g now1 now2 p k :
  In (name, g) generators ->
  field_calls (firstn k (call_sequence g now1 p))
  = field_calls (firstn k (call_sequence g now2 p)).
Proof.
  intros Hin. unfold field_calls.
  rewrite <- !firstn_map.
  rewrite (field_call_ignores_clock _ _ now1 now2 p Hin). reflexivity.
Qed.

(** The fields of the document a generator saves are the field definitions
    in its sequence of calls. *)
Lemma fields_of_document name g now p :
  In (name, g) generators ->
  fields (document g now p) = field_calls (call_sequence g now p).
Proof.
  intros Hin. each_generator Hin.
  all: vm_compute; reflexivity.
Qed.

(** *** The file behind a saved document

    What [save] puts on disk is the library's rendering of the canvas, and
    it is not a function of the canvas alone: the document information
    reportlab writes holds the time of creation (/CreationDate), which it
    reads from the clock.  Of the bytes of the file this much is kept. *)
Record PdfFile : Type := mkPdfFile {
  creation_date : datetime;
  content : Canvas
}.

(** The file a run of [g] leaves under [p], if the run completes. *)
Definition pdf_output (g : string -> M unit) (env : Env) (w : World)
  (p : string) : option PdfFile :=
  match run (g p) env w with
  | (Ok _, w') =>
      option_map (fun c => {| creation_date := clock env; content := c |})
                 (read_file p w')
  | (Raise _, _) => None
  end.

Lemma pdf_output_completed name g env w p w' :
  In (name, g) generators ->
  run (g p) env w = (Ok tt, w') ->
  pdf_output g env w p
  = Some {| creation_date := clock env;
            content := document g (clock env) p |}.
Proof.
  intros Hin Hrun. unfold pdf_output. rewrite Hrun.
  destruct (generator_returns _ _ _ _ _ _ Hin Hrun) as (Hf & _).
  unfold read_file. rewrite Hf. cbn [lookup_file].
  rewrite String.eqb_refl. reflexivity.
Qed.

(** C6, as amended.  Take two runs of one operation on one output path, in
    whatever environments and worlds, completed or not.  The field
    definitions one of them has handed to the library are an initial
    segment of those of the other, and the same when both runs got equally
    far.  When both complete, the documents saved hold the same field
    definitions, all of those handed over; the canvases are equal for
    every operation but the mixed form, and for the mixed form when the two
    clocks agree.  The files are another matter: whenever the two clocks
    differ they differ, for all four operations. *)
Theorem field_definitions_deterministic
  name g p env1 w1 r1 w1' env2 w2 r2 w2' :
  In (name, g) generators ->
  run (g p) env1 w1 = (r1, w1') ->
  run (g p) env2 w2 = (r2, w2') ->
  (prefix_of (fields_attempted w1 w1') (fields_attempted w2 w2')
   \/ prefix_of (fields_attempted w2 w2') (fields_attempted w1 w1'))
  /\ (length (new_calls w1 w1') = length (new_calls w2 w2') ->
      fields_attempted w1 w1' = fields_attempted w2 w2')
  /\ (r1 = Ok tt -> r2 = Ok tt ->
      exists d1 d2,
        read_file p w1' = Some d1
        /\ read_file p w2' = Some d2
        /\ fields d1 = fields_attempted w1 w1'
        /\ fields d2 = fields_attempted w2 w2'
        /\ fields d1 = fields d2
        /\ (name <> "mixed-form.pdf" -> d1 = d2)
        /\ (clock env1 = clock env2 -> d1 = d2)
        /\ (clock env1 <> clock env2 ->
            pdf_output g env1 w1 p <> pdf_output g env2 w2 p)).
Proof.
  intros Hin Hrun1 Hrun2.
  destruct (attempts_run _ _ _ _ _ _ _ _
              (generator_attempts _ _ (clock env1) p Hin) eq_refl Hrun1)
    as (k1 & Hnew1 & Hk1 & _ & Hend1).
  destruct (attempts_run _ _ _ _ _ _ _ _
              (generator_attempts _ _ (clock env2) p Hin) eq_refl Hrun2)
    as (k2 & Hnew2 & Hk2 & _ & Hend2).
  assert (Hlen : length (call_sequence g (clock env1) p)
                 = length (call_sequence g (clock env2) p)).
  { rewrite <- (length_map field_call (call_sequence g (clock env1) p)).
    rewrite (field_call_ignores_clock _ _ (clock env1) (clock env2) p Hin).
    apply length_map. }
  unfold fields_attempted. rewrite Hnew1, Hnew2.
  rewrite (field_calls_firstn_ignore_clock _ _ (clock env1) (clock env2) p k1 Hin).
  split; [| split].
  - destruct (Nat.le_ge_cases k1 k2) as [Hle | Hle].
    + left. apply field_calls_firstn_le. exact Hle.
    + right. apply field_calls_firstn_le. exact Hle.
  - rewrite !length_firstn. intros Hsame.
    replace k2 with k1 by lia. reflexivity.
  - intros -> ->. destruct Hend1 as [-> _]. destruct Hend2 as [-> _].
    destruct (generator_returns _ _ _ _ _ _ Hin Hrun1) as (Hf1 & _).
    destruct (generator_returns _ _ _ _ _ _ Hin Hrun2) as (Hf2 & _).
    exists (document g (clock env1) p), (document g (clock env2) p).
    split; [unfold read_file; rewrite Hf1; cbn [lookup_file];
            rewrite String.eqb_refl; reflexivity |].
    split; [unfold read_file; rewrite Hf2; cbn [lookup_file];
            rewrite String.eqb_refl; reflexivity |].
    rewrite Hlen, !firstn_all.
    split; [rewrite (fields_ignore_clock _ _ (clock env1) (clock env2) p Hin);
            apply (fields_of_document _ _ _ _ Hin) |].
    split; [apply (fields_of_document _ _ _ _ Hin) |].
    split; [apply (fields_ignore_clock _ _ _ _ _ Hin) |].
    split; [intros Hname; apply (document_ignores_clock _ _ _ _ _ Hin Hname) |].
    split; [intros ->; reflexivity |].
    intros Hclock.
    rewrite (pdf_output_completed _ _ _ _ _ _ Hin Hrun1).
    rewrite (pdf_output_completed _ _ _ _ _ _ Hin Hrun2).
    intros E. injection E as E _. contradiction.
Qed.

Lemma field_definitions_deterministic_witness :
  fields_attempted world0
    (snd (run (create_choice_fields_pdf "choice-fields.pdf")
              (choice_fails_at 7) world0))
  = fields_attempted used_world
      (snd (run (create_choice_fields_pdf "choice-fields.pdf")
                {| clock := midnight; script := "/tmp/generate_simple_forms.py";
                   fault := fun i => if Nat.eqb i 8 then Some lbextras else None |}
                used_world)).
Proof.
  apply (field_definitions_deterministic
           "choice-fields.pdf" create_choice_fields_pdf "choice-fields.pdf"
           (choice_fails_at 7) world0
           (fst (run (create_choice_fields_pdf "choice-fields.pdf")
                     (choice_fails_at 7) world0))
           (snd (run (create_choice_fields_pdf "choice-fields.pdf")
                     (choice_fails_at 7) world0))
           {| clock := midnight; script := "/tmp/generate_simple_forms.py";
              fault := fun i => if Nat.eqb i 8 then Some lbextras else None |}
           used_world
           (fst (run (create_choice_fields_pdf "choice-fields.pdf")
                     {| clock := midnight; script := "/tmp/generate_simple_forms.py";
                        fault := fun i => if Nat.eqb i 8 then Some lbextras else None |}
                     used_world))).
  - unfold generators. cbn [In]. right. right. left. reflexivity.
  - vm_compute. reflexivity.
  - vm_compute. reflexivity.
  - vm_compute. reflexivity.
Defined.

(** C6, as the specification words it, fails where it claims that the
    output is the same byte for byte for each operation but the mixed form:
    two completed runs of [create_basic_form_pdf] at different times, with
    no call refused, leave files that differ. *)
Lemma basic_form_output_varies :
  ~ (forall name g p env1 env2 w1 w2,
       In (name, g) generators ->
       name <> "mixed-form.pdf" ->
       fst (run (g p) env1 w1) = Ok tt ->
       fst (run (g p) env2 w2) = Ok tt ->
       refuses_blank_choice env1 w1 (snd (run (g p) env1 w1)) = true ->
       refuses_blank_choice env2 w2 (snd (run (g p) env2 w2)) = true ->
       pdf_output g env1 w1 p = pdf_output g env2 w2 p).
Proof.
  intros H.
  specialize (H "basic-form.pdf" create_basic_form_pdf "basic-form.pdf"
                calm calm_later world0 world0).
  assert (Hout : pdf_output create_basic_form_pdf calm world0 "basic-form.pdf"
                 = pdf_output create_basic_form_pdf calm_later world0
                     "basic-form.pdf").
  { apply H.
    - unfold generators. cbn [In]. left. reflexivity.
    - discriminate.
    - vm_compute. reflexivity.
    - vm_compute. reflexivity.
    - vm_compute. reflexivity.
    - vm_compute. reflexivity. }
  vm_compute in Hout. discriminate Hout.
Qed.

(* ===================================================================== *)
(** ** Nothing is written before [save] *)
(* ===================================================================== *)

(** Every generator ends its sequence of calls with [save], and calls it
    nowhere else. *)
Lemma call_sequence_ends_in_save name g now p :
  In (name, g) generators ->
  call_sequence g now p = removelast (call_sequence g now p) ++ [Save p]
  /\ ~ In (Save p) (removelast (call_sequence g now p)).
Proof.
  intros Hin. each_generator Hin.
  all: split; [vm_compute; reflexivity |].
  all: match goal with |- ~ In _ ?t => list_out t end.
  all: cbn [In]; intros H;
    repeat (destruct H as [H | H]; [discriminate H |]); contradiction.
Qed.

Lemma firstn_removelast {A} (l : list A) (k : nat) :
  (k < length l)%nat -> firstn k l = firstn k (removelast l).
Proof.
  revert k. induction l as [| a l IH]; intros k Hk; [cbn in Hk; lia |].
  destruct l as [| b l].
  - cbn in Hk. replace k with O by lia. reflexivity.
  - destruct k as [| k]; [reflexivity |].
    cbn [removelast firstn]. f_equal.
    apply IH. cbn [length] in *. lia.
Qed.

(** X1.  A generator touches the world only from [save] on.  A run that has
    not got as far as calling [save] has raised an [Exception] and has left
    the files, the output and the directories as they were; and a run that
    has called [save] has made every call of the generator before. *)
Theorem nothing_before_save name g env w p r w' :
  In (name, g) generators ->
  run (g p) env w = (r, w') ->
  (~ In (Save p) (new_calls w w') ->
   (exists msg, r = Raise (Exception msg))
   /\ files w' = files w
   /\ stdout w' = stdout w
   /\ dirs w' = dirs w)
  /\ (In (Save p) (new_calls w w') ->
      new_calls w w' = call_sequence g (clock env) p
      /\ forall i, (S i < length (call_sequence g (clock env) p))%nat ->
                   fault env (length (calls w) + i) = None).
Proof.
  intros Hin Hrun.
  destruct (attempts_run _ _ _ _ _ _ _ _
              (generator_attempts _ _ (clock env) p Hin) eq_refl Hrun)
    as (k & Hnew & Hk & Hbefore & Hend).
  destruct (call_sequence_ends_in_save _ _ (clock env) p Hin) as [Hseq Hbody].
  rewrite Hnew. split.
  - intros Hnosave. destruct r as [u | e].
    + exfalso. apply Hnosave. destruct Hend as [-> _].
      rewrite firstn_all, Hseq. apply in_or_app. right. left. reflexivity.
    + destruct Hend as (j & msg & _ & -> & _).
      split; [exists msg; reflexivity |].
      destruct (generator_fails_clean _ _ p Hin _ _ _ _ Hrun) as [_ O].
      exact O.
  - intros Hsave.
    assert (Hall : k = length (call_sequence g (clock env) p)).
    { destruct (Nat.eq_dec k (length (call_sequence g (clock env) p)))
        as [E | NE]; [exact E |].
      exfalso. apply Hbody.
      rewrite firstn_removelast in Hsave by lia.
      eapply in_firstn. exact Hsave. }
    subst k. split; [apply firstn_all |]. exact Hbefore.
Qed.

Lemma nothing_before_save_witness :
  files (snd (run (create_choice_fields_pdf "choice-fields.pdf")
                  (choice_fails_at 8) used_world))
  = files used_world.
Proof.
  apply (nothing_before_save "choice-fields.pdf" create_choice_fields_pdf
           (choice_fails_at 8) used_world "choice-fields.pdf"
           (fst (run (create_choice_fields_pdf "choice-fields.pdf")
                     (choice_fails_at 8) used_world))).
  - unfold generators. cbn [In]. right. right. left. reflexivity.
  - vm_compute. reflexivity.
  - vm_compute. intros H.
    repeat (destruct H as [H | H]; [discriminate H |]). contradiction.
Defined.

(* ===================================================================== *)
(** ** The calls of the mixed form *)
(* ===================================================================== *)

(** The calls of [create_mixed_form_pdf] before the footer, read off the
    generator at a fixed clock. *)
Definition mixed_form_calls_before_footer (p : string) : list Call :=
  removelast (removelast (call_sequence create_mixed_form_pdf noon p)).

Definition footer_call (now : datetime) (p : string) : Call :=
  Draw p (DrawString 50 50
            ("Form generated on " +++ strftime now "%Y-%m-%d %H:%M:%S")).

Definition is_footer (ev : Call) : bool :=
  match ev with
  | Draw _ (DrawString 50 50 _) => true
  | _ => false
  end.

Lemma mixed_form_call_sequence now p :
  call_sequence create_mixed_form_pdf now p
  = mixed_form_calls_before_footer p ++ [footer_call now p; Save p].
Proof. vm_compute. reflexivity. Qed.

(** X11.  Whatever the clock shows and wherever it stops, a run of
    [create_mixed_form_pdf] has made an initial segment of one sequence of
    calls: 21 calls that do not depend on the clock, then the [drawString]
    of the footer at (50, 50) with "Form generated on " followed by the
    clock formatted as %Y-%m-%d %H:%M:%S, then [save].  The footer is drawn
    only when all the calls before it succeeded; with a library that
    refuses a choice field whose value is empty it is never drawn, and the
    calls made do not depend on the clock at all. *)
Theorem mixed_form_calls env w p r w' :
  run (create_mixed_form_pdf p) env w = (r, w') ->
  length (mixed_form_calls_before_footer p) = 21%nat
  /\ existsb is_footer (mixed_form_calls_before_footer p) = false
  /\ (exists k,
        new_calls w w'
        = firstn k (mixed_form_calls_before_footer p
                    ++ [footer_call (clock env) p; Save p]))
  /\ (In (footer_call (clock env) p) (new_calls w w') ->
      forall i, (i < 21)%nat -> fault env (length (calls w) + i) = None)
  /\ (refuses_blank_choice env w w' = true ->
      existsb is_footer (new_calls w w') = false
      /\ exists k, (k <= 15)%nat
           /\ new_calls w w' = firstn k (mixed_form_calls_before_footer p)).
Proof.
  intros Hrun.
  pose proof (attempts_run _ _ _ _ _ _ _ _
                (create_mixed_form_pdf_attempts (clock env) p) eq_refl Hrun)
    as (k & Hnew & Hk & Hbefore & Hend).
  rewrite mixed_form_call_sequence in Hnew, Hk.
  assert (Hlen : length (mixed_form_calls_before_footer p) = 21%nat)
    by (vm_compute; reflexivity).
  assert (Hbody : existsb is_footer (mixed_form_calls_before_footer p) = false)
    by (vm_compute; reflexivity).
  split; [exact Hlen |]. split; [exact Hbody |].
  split; [exists k; exact Hnew |]. split.
  - intros Hin i Hi. apply Hbefore.
    destruct (Nat.lt_ge_cases 21 k) as [Hlt | Hge]; [lia |].
    exfalso. rewrite Hnew in Hin.
    rewrite firstn_app, Hlen in Hin.
    replace (k - 21)%nat with O in Hin by lia.
    cbn [firstn] in Hin. rewrite app_nil_r in Hin.
    apply in_firstn in Hin.
    assert (Hex : existsb is_footer (mixed_form_calls_before_footer p) = true).
    { apply existsb_exists. exists (footer_call (clock env) p).
      split; [exact Hin | reflexivity]. }
    rewrite Hbody in Hex. discriminate Hex.
  - intros Hlib.
    nth_call (call_sequence create_mixed_form_pdf (clock env) p) 14%nat ev E.
    destruct (stops_at_blank _ _ _ _ _ _ _ _ 14%nat _
                (create_mixed_form_pdf_attempts (clock env) p)
                eq_refl Hrun Hlib E eq_refl)
      as (j & msg & Hj & _ & _ & Hnew').
    rewrite mixed_form_call_sequence in Hnew'.
    assert (Hfirst : new_calls w w'
                     = firstn (S j) (mixed_form_calls_before_footer p)).
    { rewrite Hnew', firstn_app, Hlen.
      replace (S j - 21)%nat with O by lia.
      cbn [firstn]. apply app_nil_r. }
    split; [| exists (S j); split; [lia | exact Hfirst]].
    rewrite Hfirst.
    destruct (existsb is_footer
                (firstn (S j) (mixed_form_calls_before_footer p))) eqn:Hex;
      [| reflexivity].
    apply existsb_exists in Hex as (ev & Hin & Hev).
    apply in_firstn in Hin.
    assert (Hex : existsb is_footer (mixed_form_calls_before_footer p) = true).
    { apply existsb_exists. exists ev. split; assumption. }
    rewrite Hbody in Hex. discriminate Hex.
Qed.

Lemma mixed_form_calls_witness :
  existsb is_footer
    (new_calls world0
       (snd (run (create_mixed_form_pdf "mixed-form.pdf")
                 (choice_fails_at 14) world0)))
  = false.
Proof.
  apply (mixed_form_calls (choice_fails_at 14) world0 "mixed-form.pdf"
           (fst (run (create_mixed_form_pdf "mixed-form.pdf")
                     (choice_fails_at 14) world0))
           (snd (run (create_mixed_form_pdf "mixed-form.pdf")
                     (choice_fails_at 14) world0))).
  - vm_compute. reflexivity.
  - vm_compute. reflexivity.
Defined.

(* ===================================================================== *)
(** ** A run of [main] with the library as released *)
(* ===================================================================== *)

(** The library calls of the guarded block of [main] when none fails. *)
Definition guarded_calls (env : Env) : list Call :=
  flat_map (fun ng => call_sequence (snd ng) (clock env)
                                    (output_path env (fst ng)))
           generators.

Lemma summary_attempts now dir : Attempts now (summary dir) [] tt.
Proof.
  unfold summary. eapply attempts_eq; [attempts_step | reflexivity].
Qed.

Lemma guarded_block_attempts env :
  Attempts (clock env)
           (then_all (generation_calls env) (summary (output_dir env)))
           (guarded_calls env) tt.
Proof.
  unfold generation_calls, guarded_calls, generators.
  cbn [map flat_map then_all fold_right fst snd].
  eapply attempts_bind; [apply create_basic_form_pdf_attempts |].
  eapply attempts_bind; [apply create_text_fields_pdf_attempts |].
  eapply attempts_bind; [apply create_choice_fields_pdf_attempts |].
  eapply attempts_bind; [apply create_mixed_form_pdf_attempts |].
  apply summary_attempts.
Qed.

(** [main] after a successful [os.makedirs]. *)
Definition after_makedirs (env : Env) (w : World) : World :=
  println "Generating test PDF forms..."
          (make_dir (output_dir env) (log (Makedirs (output_dir env)) w)).

Lemma main_after_makedirs env w :
  fault env (length (calls w)) = None ->
  run main env w
  = try_except_Exception
      (then_all (generation_calls env) (summary (output_dir env)))
      report env (after_makedirs env w).
Proof.
  intros Hfault. rewrite main_unfold. unfold run. cbn [bind Monad_M].
  unfold os_makedirs, lib_call. rewrite Hfault. reflexivity.
Qed.

(** The calls [main] has made, however it ends: [os.makedirs], then an
    initial segment of the calls of the guarded block, up to the first one
    that fails. *)
Lemma main_calls env w :
  match fault env (length (calls w)) with
  | Some _ => new_calls w (snd (run main env w)) = [Makedirs (output_dir env)]
  | None =>
      new_calls w (snd (run main env w))
      = Makedirs (output_dir env)
        :: firstn match first_fault env (S (length (calls w)))
                                    (length (guarded_calls env)) with
                  | Some (j, _) => S j
                  | None => length (guarded_calls env)
                  end
                  (guarded_calls env)
  end.
Proof.
  destruct (fault env (length (calls w))) as [msg |] eqn:Hfault.
  - apply new_calls_app. rewrite main_unfold. unfold run. cbn [bind Monad_M].
    unfold os_makedirs, lib_call. rewrite Hfault. reflexivity.
  - rewrite (main_after_makedirs _ _ Hfault).
    pose proof (guarded_block_attempts env env (after_makedirs env w) eq_refl)
      as Hbody.
    change (length (calls (after_makedirs env w)))
      with (S (length (calls w))) in Hbody.
    unfold try_except_Exception.
    destruct (first_fault env (S (length (calls w)))
                          (length (guarded_calls env))) as [[j msg] |].
    + destruct Hbody as (w' & Hrun & Hcalls). unfold run in Hrun.
      rewrite Hrun. apply new_calls_app. cbn [snd].
      change (calls (snd (report msg env w'))) with (calls w').
      rewrite Hcalls. cbn [rev]. rewrite <- app_assoc. reflexivity.
    + destruct Hbody as (w' & Hrun & Hcalls). unfold run in Hrun.
      rewrite Hrun. apply new_calls_app. cbn [snd].
      rewrite Hcalls, firstn_all. cbn [rev]. rewrite <- app_assoc. reflexivity.
Qed.

(** If the first 44 calls succeed and the 45th, which creates [state],
    fails, [main] has written two documents and reports the failure. *)
Lemma main_stops_at_call_44 env w msg :
  (forall i, (i < 44)%nat -> fault env (length (calls w) + i) = None) ->
  fault env (length (calls w) + 44) = Some msg ->
  exists w',
    run main env w
    = (Raise (SystemExit 1), println ("Error generating PDFs: " +++ msg) w')
    /\ stdout w'
       = [ "Created: " +++ output_path env "text-fields.pdf";
           "Created: " +++ output_path env "basic-form.pdf";
           "Generating test PDF forms..." ] ++ stdout w
    /\ files w'
       = [ (output_path env "text-fields.pdf",
            document create_text_fields_pdf (clock env)
                     (output_path env "text-fields.pdf"));
           (output_path env "basic-form.pdf",
            document create_basic_form_pdf (clock env)
                     (output_path env "basic-form.pdf")) ] ++ files w
    /\ dirs w' = output_dir env :: dirs w.
Proof.
  intros Hnone Hsome.
  assert (H0 : fault env (length (calls w)) = None).
  { rewrite <- (Nat.add_0_r (length (calls w))). apply Hnone. lia. }
  rewrite (main_after_makedirs _ _ H0).
  set (w1 := after_makedirs env w).
  set (p1 := output_path env "basic-form.pdf").
  set (p2 := output_path env "text-fields.pdf").
  set (p3 := output_path env "choice-fields.pdf").
  (* basic-form.pdf *)
  pose proof (create_basic_form_pdf_attempts (clock env) p1 env w1 eq_refl)
    as A1.
  rewrite first_fault_none in A1.
  2:{ intros i Hi. change (length (calls w1)) with (S (length (calls w))).
      replace (S (length (calls w)) + i)%nat
        with (length (calls w) + S i)%nat by lia.
      apply Hnone. vm_compute in Hi. lia. }
  destruct A1 as (w2 & R1 & C1).
  destruct (generator_returns "basic-form.pdf" create_basic_form_pdf
              env w1 p1 w2) as (F1 & S1 & D1);
    [left; reflexivity | exact R1 |].
  assert (L2 : length (calls w2) = (length (calls w) + 20)%nat).
  { rewrite C1, length_app, length_rev.
    change (length (calls w1)) with (S (length (calls w))).
    replace (length (call_sequence create_basic_form_pdf (clock env) p1))
      with 19%nat by (vm_compute; reflexivity).
    lia. }
  (* text-fields.pdf *)
  pose proof (create_text_fields_pdf_attempts (clock env) p2 env w2 eq_refl)
    as A2.
  rewrite first_fault_none in A2.
  2:{ intros i Hi. rewrite L2, <- Nat.add_assoc. apply Hnone.
      vm_compute in Hi. lia. }
  destruct A2 as (w3 & R2 & C2).
  destruct (generator_returns "text-fields.pdf" create_text_fields_pdf
              env w2 p2 w3) as (F2 & S2 & D2);
    [right; left; reflexivity | exact R2 |].
  assert (L3 : length (calls w3) = (length (calls w) + 37)%nat).
  { rewrite C2, length_app, length_rev, L2.
    replace (length (call_sequence create_text_fields_pdf (clock env) p2))
      with 17%nat by (vm_compute; reflexivity).
    lia. }
  (* choice-fields.pdf *)
  pose proof (create_choice_fields_pdf_attempts (clock env) p3 env w3 eq_refl)
    as A3.
  rewrite (first_fault_some env _ _ 7 msg) in A3.
  2:{ vm_compute. lia. }
  2:{ rewrite L3, <- Nat.add_assoc. exact Hsome. }
  2:{ intros i Hi. rewrite L3, <- Nat.add_assoc. apply Hnone. lia. }
  destruct A3 as (w4 & R3 & C3).
  destruct (create_choice_fields_pdf_fails_clean p3 _ _ _ _ R3)
    as [_ (F3 & S3 & D3)].
  (* the guarded block *)
  assert (Hbody : run (then_all (generation_calls env)
                                (summary (output_dir env))) env w1
                  = (Raise (Exception msg), w4)).
  { apply (then_all_raises _ env (Exception msg) w4 2
             (generation_calls env) (create_choice_fields_pdf p3) w1 w3).
    - reflexivity.
    - unfold generation_calls, generators.
      cbn [map firstn then_all fold_right fst snd].
      fold p1 p2. unfold run in *. cbn [bind Monad_M ret].
      rewrite R1, R2. reflexivity.
    - exact R3. }
  unfold run in Hbody. unfold try_except_Exception. rewrite Hbody.
  exists w4. split; [reflexivity |].
  rewrite F3, S3, D3, F2, S2, D2, F1, S1, D1.
  repeat split.
Qed.

(** The library failed on exactly those calls of the run that are choice
    calls with an empty value. *)
Definition as_released (env : Env) (w w' : World) : bool :=
  forallb (fun ke => Bool.eqb (blank_choice (snd ke)) (faulted env (fst ke)))
          (numbered (length (calls w)) (new_calls w w')).

(** With such a library, a straight line of calls whose first choice call
    with an empty value is the [b]-th stops exactly there. *)
Lemma released_first_fault env start evs b ev :
  nth_error evs b = Some ev ->
  blank_choice ev = true ->
  forallb (fun e => negb (blank_choice e)) (firstn b evs) = true ->
  forallb (fun ke => Bool.eqb (blank_choice (snd ke)) (faulted env (fst ke)))
          (numbered start
             (firstn match first_fault env start (length evs) with
                     | Some (j, _) => S j
                     | None => length evs
                     end evs)) = true ->
  exists msg, first_fault env start (length evs) = Some (b, msg).
Proof.
  intros Hb Hblank Hpre Hall.
  assert (Hlt : (b < length evs)%nat).
  { apply nth_error_Some. rewrite Hb. discriminate. }
  pose proof (first_fault_spec env (length evs) start) as S.
  destruct (first_fault env start (length evs)) as [[j msg] |].
  - destruct S as (Hj & Hf & Hn).
    destruct (Nat.lt_trichotomy j b) as [L | [E | L]].
    + (* a call before the blank one failed *)
      exfalso.
      destruct (nth_error evs j) as [evj |] eqn:Ej;
        [| apply nth_error_None in Ej; lia].
      assert (Hin : nth_error (firstn (S j) evs) j = Some evj).
      { rewrite nth_error_firstn.
        destruct (Nat.ltb_spec j (S j)); [exact Ej | lia]. }
      pose proof (numbered_nth _ _ _ _ _ Hall Hin) as H.
      cbn [fst snd] in H. unfold faulted in H. rewrite Hf in H.
      assert (Hnb : negb (blank_choice evj) = true).
      { rewrite forallb_forall in Hpre. apply Hpre.
        apply (in_firstn_le _ _ (S j) b L).
        apply nth_error_in_firstn. exact Ej. }
      destruct (blank_choice evj); discriminate.
    + subst j. exists msg. reflexivity.
    + (* the blank call went through *)
      exfalso.
      assert (Hin : nth_error (firstn (S j) evs) b = Some ev).
      { rewrite nth_error_firstn.
        destruct (Nat.ltb_spec b (S j)); [exact Hb | lia]. }
      pose proof (numbered_nth _ _ _ _ _ Hall Hin) as H.
      cbn [fst snd] in H. unfold faulted in H.
      rewrite (Hn b L), Hblank in H. discriminate H.
  - exfalso. rewrite firstn_all in Hall.
    pose proof (numbered_nth _ _ _ _ _ Hall Hb) as H.
    cbn [fst snd] in H. unfold faulted in H.
    rewrite (S b Hlt), Hblank in H. discriminate H.
Qed.

(** X12.  With the library as released, where the calls that fail are the
    choice calls with an empty value and no others, [main] creates the
    output directory, writes basic-form.pdf and text-fields.pdf, and stops
    at the call that creates [state] in choice-fields.pdf, the 45th call it
    makes: it prints the opening line, two "Created: " lines and the error
    line, and exits with status 1.  choice-fields.pdf and mixed-form.pdf
    are not written, and no call is made for the mixed form. *)
Theorem main_with_library_as_released env w :
  as_released env w (snd (run main env w)) = true ->
  exists msg args,
    fault env (length (calls w) + 44) = Some msg
    /\ fst (run main env w) = Raise (SystemExit 1)
    /\ stdout (snd (run main env w))
       = rev [ "Generating test PDF forms...";
               "Created: " +++ output_path env "basic-form.pdf";
               "Created: " +++ output_path env "text-fields.pdf";
               "Error generating PDFs: " +++ msg ]
         ++ stdout w
    /\ files (snd (run main env w))
       = [ (output_path env "text-fields.pdf",
            document create_text_fields_pdf (clock env)
                     (output_path env "text-fields.pdf"));
           (output_path env "basic-form.pdf",
            document create_basic_form_pdf (clock env)
                     (output_path env "basic-form.pdf")) ] ++ files w
    /\ dirs (snd (run main env w)) = output_dir env :: dirs w
    /\ length (new_calls w (snd (run main env w))) = 45%nat
    /\ nth_error (new_calls w (snd (run main env w))) 44
       = Some (Draw (output_path env "choice-fields.pdf") (Field choice args))
    /\ kw "name" args = Some (Str "state")
    /\ kw "value" args = Some (Str "")
    /\ (forall ev, In ev (new_calls w (snd (run main env w))) ->
          call_path ev <> Some (output_path env "mixed-form.pdf")).
Proof.
  intros Hlib. unfold as_released in Hlib.
  pose proof (main_calls env w) as Hcalls.
  destruct (fault env (length (calls w))) as [msg0 |] eqn:H0.
  { (* [os.makedirs] is not a choice call *)
    exfalso. rewrite Hcalls in Hlib.
    cbn [numbered length seq combine forallb fst snd blank_choice] in Hlib.
    unfold faulted in Hlib. rewrite H0 in Hlib. discriminate Hlib. }
  rewrite Hcalls in Hlib.
  unfold numbered in Hlib. cbn [length seq combine forallb] in Hlib.
  apply andb_prop in Hlib as [_ Hlib].
  fold (numbered (S (length (calls w)))
          (firstn match first_fault env (S (length (calls w)))
                                      (length (guarded_calls env)) with
                  | Some (j, _) => S j
                  | None => length (guarded_calls env)
                  end (guarded_calls env))) in Hlib.
  assert (Hseq : exists args,
             nth_error (guarded_calls env) 43
             = Some (Draw (output_path env "choice-fields.pdf")
                          (Field choice args))
             /\ kw "name" args = Some (Str "state")
             /\ kw "value" args = Some (Str "")
             /\ forallb (fun e => negb (blank_choice e))
                        (firstn 43 (guarded_calls env)) = true
             /\ (forall ev, In ev (firstn 44 (guarded_calls env)) ->
                   call_path ev <> Some (output_path env "mixed-form.pdf"))).
  { unfold guarded_calls, generators. cbn [flat_map fst snd].
    pose proof (output_path_inj env "choice-fields.pdf" "mixed-form.pdf") as I3.
    pose proof (output_path_inj env "text-fields.pdf" "mixed-form.pdf") as I2.
    pose proof (output_path_inj env "basic-form.pdf" "mixed-form.pdf") as I1.
    revert I1 I2 I3.
    generalize (output_path env "basic-form.pdf") as p1.
    generalize (output_path env "text-fields.pdf") as p2.
    generalize (output_path env "choice-fields.pdf") as p3.
    generalize (output_path env "mixed-form.pdf") as p4.
    intros p4 p3 p2 p1 I1 I2 I3.
    assert (N1 : p1 <> p4).
    { intros E. apply I1 in E; [discriminate E | |]; vm_compute; auto 6. }
    assert (N2 : p2 <> p4).
    { intros E. apply I2 in E; [discriminate E | |]; vm_compute; auto 6. }
    assert (N3 : p3 <> p4).
    { intros E. apply I3 in E; [discriminate E | |]; vm_compute; auto 6. }
    eexists. split; [vm_compute; reflexivity |].
    split; [reflexivity |]. split; [reflexivity |].
    split; [vm_compute; reflexivity |].
    intros ev.
    match goal with |- In _ ?t -> _ => list_out t end.
    cbn [In]. intros Hin.
    repeat (destruct Hin as [<- | Hin];
            [cbn [call_path]; congruence |]).
    contradiction. }
  destruct Hseq as (args & Hnth & Hname & Hvalue & Hpre & Hpaths).
  destruct (released_first_fault env (S (length (calls w))) (guarded_calls env)
              43 _ Hnth) as [msg Hfirst];
    [cbn [blank_choice]; rewrite Hvalue; reflexivity | exact Hpre | exact Hlib |].
  rewrite Hfirst in Hcalls.
  pose proof (first_fault_spec env (length (guarded_calls env))
                (S (length (calls w)))) as S.
  rewrite Hfirst in S. destruct S as (_ & Hf & Hn).
  assert (Hsome : fault env (length (calls w) + 44) = Some msg).
  { replace (length (calls w) + 44)%nat
      with (S (length (calls w)) + 43)%nat by lia. exact Hf. }
  assert (Hnone : forall i, (i < 44)%nat ->
                            fault env (length (calls w) + i) = None).
  { intros [| i] Hi; [rewrite Nat.add_0_r; exact H0 |].
    replace (length (calls w) + S i)%nat
      with (S (length (calls w)) + i)%nat by lia.
    apply Hn. lia. }
  destruct (main_stops_at_call_44 env w msg Hnone Hsome)
    as (w' & Hrun & Hout & Hfiles & Hdirs).
  exists msg, args.
  split; [exact Hsome |].
  rewrite Hcalls. rewrite Hrun. cbn [fst snd println stdout files dirs].
  split; [reflexivity |].
  split; [rewrite Hout; reflexivity |].
  split; [exact Hfiles |]. split; [exact Hdirs |].
  assert (Hlen : (44 <= length (guarded_calls env))%nat).
  { change (43 < length (guarded_calls env))%nat.
    apply nth_error_Some. rewrite Hnth. discriminate. }
  split; [cbn [length]; rewrite length_firstn; lia |].
  split.
  - change (nth_error (firstn 44 (guarded_calls env)) 43
            = Some (Draw (output_path env "choice-fields.pdf")
                         (Field choice args))).
    rewrite nth_error_firstn.
    destruct (Nat.ltb_spec 43 44); [exact Hnth | lia].
  - split; [exact Hname |]. split; [exact Hvalue |].
    intros ev [<- | Hin]; [cbn [call_path]; discriminate |].
    apply Hpaths. exact Hin.
Qed.

Lemma main_with_library_as_released_witness :
  fst (run main (choice_fails_at 44) world0) = Raise (SystemExit 1)
  /\ length (files (snd (run main (choice_fails_at 44) world0))) = 2%nat.
Proof.
  destruct (main_with_library_as_released (choice_fails_at 44) world0)
    as (msg & args & _ & Hexit & _ & Hfiles & _).
  - vm_compute. reflexivity.
  - split; [exact Hexit |]. rewrite Hfiles. reflexivity.
Defined.
